(** * Health checker: probe, classify, aggregate

    A shallow embedding of [scripts/health_check.py] and the properties of its
    probe-execute-classify-aggregate engine.

    Conventions of the embedding.
    - Python [str] is [string], the bytes of its UTF-8 encoding: a code point
      below 128 is one byte, any other is a lead byte followed by
      continuation bytes, all of them above 127.  Equality and the substring
      test on the bytes are those on the code points.  A [str] that holds
      a lone surrogate has no UTF-8 encoding and is not represented.  The
      case conversions [str.lower] and [str.upper] belong to the runtime
      ([Unicode]); on ASCII text they are the conversions of the letters A
      to Z.
    - Python [int] is [Z]; Python [float] is modelled by the rational [Q] it
      denotes, so the binary rounding of a product is not represented.
    - Values decoded from JSON are [pyval]; a [dict] is a [gmap].
    - The outside world (wall clock, calendar, HTTP peers) is a scripted
      environment [Env]; the code runs in a state-and-exception monad [M]
      that counts how often each part of the world was consulted. *)

From Stdlib Require Import Ascii String QArith Qround.
From stdpp Require Import gmap strings list fin_maps pretty.

#[local] Set Warnings "-register-all".
#[local] Open Scope string_scope.

(** ** Python values *)

Inductive pyval : Type :=
  | PNone
  | PBool (b : bool)
  | PInt (n : Z)
  | PFloat (q : Q)
  | PStr (s : string)
  | PList (l : list pyval)
  | PDict (d : gmap string pyval).

(** [v == s] for a string literal [s]: only a [str] equals a [str]. *)
Definition py_eq_str (v : pyval) (s : string) : bool :=
  match v with
  | PStr t => String.eqb t s
  | _ => false
  end.

(** [type(v).__name__], as it appears in an [AttributeError]. *)
Definition type_name (v : pyval) : string :=
  match v with
  | PNone => "NoneType"
  | PBool _ => "bool"
  | PInt _ => "int"
  | PFloat _ => "float"
  | PStr _ => "str"
  | PList _ => "list"
  | PDict _ => "dict"
  end.

(** ** Strings *)

Definition lower_ascii (c : ascii) : ascii :=
  let n := nat_of_ascii c in
  if (65 <=? n)%nat && (n <=? 90)%nat then ascii_of_nat (n + 32) else c.

Definition upper_ascii (c : ascii) : ascii :=
  let n := nat_of_ascii c in
  if (97 <=? n)%nat && (n <=? 122)%nat then ascii_of_nat (n - 32) else c.

(** The letters A to Z of [s] turned into a to z, every other byte kept. *)
Fixpoint ascii_lower (s : string) : string :=
  match s with
  | EmptyString => EmptyString
  | String c s' => String (lower_ascii c) (ascii_lower s')
  end.

(** The letters a to z of [s] turned into A to Z, every other byte kept. *)
Fixpoint ascii_upper (s : string) : string :=
  match s with
  | EmptyString => EmptyString
  | String c s' => String (upper_ascii c) (ascii_upper s')
  end.

(** [s.isascii()]: every code point is below 128. *)
Fixpoint is_ascii (s : string) : bool :=
  match s with
  | EmptyString => true
  | String c s' => (nat_of_ascii c <? 128)%nat && is_ascii s'
  end.

(** [s.lower()] and [s.upper()].  Python converts with the case tables of
    the Unicode standard: the Kelvin sign U+212A lowers to the letter [k],
    and the upper case of a character can be longer than the character.
    The tables are the runtime's; what the model knows of them is what they
    do to ASCII text. *)
Class Unicode : Type := {
  lower : string → string;
  upper : string → string;
  lower_ascii_text (s : string) : is_ascii s = true → lower s = ascii_lower s;
  upper_ascii_text (s : string) : is_ascii s = true → upper s = ascii_upper s;
}.

(** [len(s)]: the number of code points, that is, of bytes that are no
    continuation bytes. *)
Fixpoint len (s : string) : nat :=
  match s with
  | EmptyString => 0
  | String c s' =>
      let n := nat_of_ascii c in
      ((if (128 <=? n)%nat && (n <? 192)%nat then 0 else 1) + len s')%nat
  end.

(** [needle in hay] *)
Fixpoint contains (needle hay : string) : bool :=
  String.prefix needle hay ||
  match hay with
  | EmptyString => false
  | String _ hay' => contains needle hay'
  end.

(** ** Numbers *)

(** Nearest integer, ties to even. *)
Definition round_half_even (q : Q) : Z :=
  let f := Qfloor q in
  match Qcompare (q - inject_Z f) (1 # 2) with
  | Lt => f
  | Gt => (f + 1)%Z
  | Eq => if Z.even f then f else (f + 1)%Z
  end.

(** [round(x, 2)] *)
Definition round2 (x : Q) : Q :=
  Qmake (round_half_even (x * 100)) 100.

(** Truth value of a float: everything but zero. *)
Definition float_truthy (x : Q) : bool := negb (Qeq_bool x 0).

(** [sum(...)] over integers. *)
Definition sum (l : list Z) : Z := foldl Z.add 0%Z l.

(** ** Exceptions and the world *)

(** The two classes the probe tells apart: [asyncio.TimeoutError], and any
    other [Exception] with its [str(e)].  Signals outside the [Exception]
    hierarchy (cancellation, keyboard interrupt) are no answer to a request
    and are not represented. *)
Inductive exn : Type :=
  | TimeoutError
  | Exception (msg : string).

Inductive outcome (A : Type) : Type :=
  | Returned (a : A)
  | Raised (e : exn).
Arguments Returned {A} a.
Arguments Raised {A} e.

Module aiohttp.
(** What the probe can observe of a response: the status line, and what
    decoding the body as JSON or as text gives. *)
Record ClientResponse : Type := {
  status : Z;
  json : outcome pyval;
  text : outcome string;
}.

Inductive reply : Type :=
  | Responds (r : ClientResponse)
  | Fails (e : exn).
End aiohttp.

Module requests.
(** The retry strategy of [urllib3.util.retry.Retry]. *)
Record Retry : Type := {
  total : Z;
  backoff_factor : Z;
  status_forcelist : list Z;
}.

(** A session is the table of its mounted adapters, by URL prefix; an
    adapter is its retry strategy. *)
Definition Session : Type := gmap string Retry.

Definition no_retry : Retry :=
  {| total := 0; backoff_factor := 0; status_forcelist := [] |}.

(** [requests.Session()] *)
Definition new_session : Session :=
  <["http://" := no_retry]> (<["https://" := no_retry]> ∅).

Definition mount (prefix : string) (adapter : Retry) (s : Session) : Session :=
  <[prefix := adapter]> s.

(** What the synchronous probe can observe of a response: the status line,
    what decoding the body as JSON gives, and the body as text, which is
    decoded with replacement characters and so is always there. *)
Record Response : Type := {
  status_code : Z;
  json : outcome pyval;
  text : string;
}.

Inductive reply : Type :=
  | Responds (r : Response)
  | Fails (e : exn).
End requests.

Record Env : Type := {
  (** successive readings of [time.time()] *)
  clock : nat → Q;
  (** successive values of [datetime.now().isoformat()] *)
  calendar : nat → string;
  (** answer to the [n]-th GET, given the URL and the total timeout *)
  network : string → Z → nat → aiohttp.reply;
  (** outcome of the [n]-th call of [get] on a requests session, given the
      session, the URL and the timeout: what is left when the mounted
      adapter has made its retries *)
  session_outcome : requests.Session → string → Z → nat → requests.reply;
}.

Record St : Type := {
  clock_reads : nat;
  calendar_reads : nat;
  requests_sent : nat;
}.

Definition St0 : St :=
  {| clock_reads := 0; calendar_reads := 0; requests_sent := 0 |}.

Definition M (A : Type) : Type := Env → St → outcome A * St.

#[global] Instance M_ret : MRet M := λ A a _ st, (Returned a, st).

#[global] Instance M_bind : MBind M := λ A B f m env st,
  match m env st with
  | (Returned a, st') => f a env st'
  | (Raised e, st') => (Raised e, st')
  end.

Definition raise {A} (e : exn) : M A := λ _ st, (Raised e, st).

(** [try: body / except ...: handler] *)
Definition try_except {A} (body : M A) (handler : exn → M A) : M A :=
  λ env st,
    match body env st with
    | (Returned a, st') => (Returned a, st')
    | (Raised e, st') => handler e env st'
    end.

Definition lift_outcome {A} (o : outcome A) : M A := λ _ st, (o, st).

(** [time.time()] *)
Definition time_time : M Q := λ env st,
  (Returned (clock env (clock_reads st)),
   {| clock_reads := S (clock_reads st);
      calendar_reads := calendar_reads st;
      requests_sent := requests_sent st |}).

(** [datetime.now().isoformat()] *)
Definition datetime_now_isoformat : M string := λ env st,
  (Returned (calendar env (calendar_reads st)),
   {| clock_reads := clock_reads st;
      calendar_reads := S (calendar_reads st);
      requests_sent := requests_sent st |}).

(** [session.get(url)] on a session whose total timeout is [timeout]. *)
Definition session_get (timeout : Z) (url : string) : M aiohttp.ClientResponse :=
  λ env st,
    let st' := {| clock_reads := clock_reads st;
                  calendar_reads := calendar_reads st;
                  requests_sent := S (requests_sent st) |} in
    match network env url timeout (requests_sent st) with
    | aiohttp.Responds r => (Returned r, st')
    | aiohttp.Fails e => (Raised e, st')
    end.

(** [session.get(url, timeout=timeout)] on the requests session: one call.
    The adapter mounted on the session sends the request and repeats it as
    its retry strategy says; the probe sees the outcome of the call only,
    and [requests_sent] counts the call once.  [TimeoutError] stands for
    [requests.exceptions.Timeout] here. *)
Definition requests_get (session : requests.Session) (timeout : Z)
    (url : string) : M requests.Response :=
  λ env st,
    let st' := {| clock_reads := clock_reads st;
                  calendar_reads := calendar_reads st;
                  requests_sent := S (requests_sent st) |} in
    match session_outcome env session url timeout (requests_sent st) with
    | requests.Responds r => (Returned r, st')
    | requests.Fails e => (Raised e, st')
    end.

(** [d[key]] on a [Dict[str, str]]; a missing key is a [KeyError], whose
    text is the key between quotes. *)
Definition getitem (d : gmap string string) (key : string) : M string :=
  match d !! key with
  | Some v => mret v
  | None => raise (Exception ("'" +:+ key +:+ "'"))
  end.

(** [data.get(key, default)]: only a [dict] has the method. *)
Definition get (data : pyval) (key : string) (dflt : pyval) : M pyval :=
  match data with
  | PDict d => mret (default dflt (d !! key))
  | _ => raise (Exception ("'" +:+ type_name data +:+ "' object has no attribute 'get'"))
  end.

(** ** Data classes *)

Module ServiceCheck.
(** Represents the result of a service health check.  [status] is
    annotated [str] in the source but holds whatever the probe stored. *)
Record t : Type := {
  name : string;
  url : string;
  status : pyval;
  response_time : option Q;
  error_message : option string;
  timestamp : string;
  metadata : option (gmap string string);
}.

Definition __post_init__ (self : t) : M t :=
  timestamp ←
    (if String.eqb (timestamp self) "" then datetime_now_isoformat
     else mret (timestamp self));
  let metadata :=
    match metadata self with
    | None => Some ∅
    | Some m => Some m
    end in
  mret {| name := name self; url := url self; status := status self;
          response_time := response_time self;
          error_message := error_message self;
          timestamp := timestamp; metadata := metadata |}.

(** The generated constructor followed by [__post_init__]. *)
Definition new (name url : string) (status : pyval)
    (response_time : option Q) (error_message : option string)
    (timestamp : string) (metadata : option (gmap string string)) : M t :=
  __post_init__
    {| name := name; url := url; status := status;
       response_time := response_time; error_message := error_message;
       timestamp := timestamp; metadata := metadata |}.
End ServiceCheck.

Module HealthReport.
(** Comprehensive health report for all services. *)
Record t : Type := {
  timestamp : string;
  overall_status : string;
  total_services : Z;
  healthy_services : Z;
  unhealthy_services : Z;
  unknown_services : Z;
  checks : list ServiceCheck.t;
  duration : Q;
}.
End HealthReport.

(** ** The console *)

Definition nl : string := String (ascii_of_nat 10) "".

Definition esc : string := String (ascii_of_nat 27) "".

(** [s * n] *)
Fixpoint repeat_str (s : string) (n : nat) : string :=
  match n with
  | O => ""
  | S n => s +:+ repeat_str s n
  end.

(** The format [{s:<width}]: [s] padded with spaces on the right up to
    [width] code points. *)
Definition ljust (s : string) (width : nat) : string :=
  s +:+ repeat_str " " (width - len s).

(** Code that writes to standard output: the text written so far is
    threaded through, and an exception keeps what was written. *)
Definition P (A : Type) : Type := string → outcome A * string.

#[global] Instance P_ret : MRet P := λ A a out, (Returned a, out).

#[global] Instance P_bind : MBind P := λ A B f m out,
  match m out with
  | (Returned a, out') => f a out'
  | (Raised e, out') => (Raised e, out')
  end.

(** [print(s, end=e)], standard output encoding as UTF-8: every text that
    has a UTF-8 encoding is written.  (A [str] with a lone surrogate, for
    which the call raises [UnicodeEncodeError], is none of them.) *)
Definition print_end (s e : string) : P unit :=
  λ out, (Returned tt, out +:+ s +:+ e).

(** [print(s)] *)
Definition print (s : string) : P unit := print_end s nl.

Definition lift_value {A} (o : outcome A) : P A := λ out, (o, out).

(** Truth value of an optional string: present and not empty. *)
Definition str_truthy (s : option string) : bool :=
  match s with
  | Some (String _ _) => true
  | _ => false
  end.

(** [str(s)] of an optional string. *)
Definition str_optional (s : option string) : string :=
  match s with
  | Some s => s
  | None => "None"
  end.

Module argparse.
(** The parsed command line. *)
Record Namespace : Type := {
  verbose : bool;
  json : bool;
  alert : bool;
  timeout : Z;
  retries : Z;
}.
End argparse.

(** ** The health checker *)

Module HealthChecker.
Record t : Type := {
  timeout : Z;
  max_retries : Z;
  session : requests.Session;
}.

(** Create a requests session with retry strategy. *)
Definition _create_session (max_retries : Z) : requests.Session :=
  let session := requests.new_session in
  let retry_strategy :=
    {| requests.total := max_retries;
       requests.backoff_factor := 1;
       requests.status_forcelist := [429; 500; 502; 503; 504]%Z |} in
  let adapter := retry_strategy in
  let session := requests.mount "http://" adapter session in
  let session := requests.mount "https://" adapter session in
  session.

Definition __init__ (timeout max_retries : Z) : t :=
  {| timeout := timeout; max_retries := max_retries;
     session := _create_session max_retries |}.

Definition service (name url type : string) : gmap string string :=
  <["name" := name]> (<["url" := url]> (<["type" := type]> ∅)).

(** Get list of services to check with their endpoints. *)
Definition get_services_to_check : list (gmap string string) :=
  [ service "LiteLLM Proxy" "http://localhost:4000/health/liveliness" "api";
    service "vLLM Qwen2.5-14B" "http://localhost:9998/health" "model";
    service "vLLM Qwen3-30B" "http://localhost:9999/health" "model";
    service "Xinference" "http://localhost:9900/health" "model";
    service "RAGFlow" "http://localhost:9380/" "web";
    service "Prometheus" "http://localhost:9090/-/healthy" "monitoring";
    service "PostgreSQL" "http://localhost:5432/health" "database";
    service "MySQL" "http://localhost:3306/health" "database";
    service "Redis" "http://localhost:6379/health" "cache";
    service "Elasticsearch" "http://localhost:1200/_cluster/health" "search";
    service "MinIO" "http://localhost:9000/minio/health/live" "storage" ].

Section Runtime.
Context {py : Unicode}.

(** Asynchronously check a single service. *)
Definition check_service_async (self : t) (service : gmap string string)
    : M ServiceCheck.t :=
  name ← getitem service "name";
  url ← getitem service "url";
  service_type ← getitem service "type";
  start_time ← time_time;
  '(response_time, status, error_message) ←
    try_except
      (response ← session_get (timeout self) url;
       now ← time_time;
       let response_time := (now - start_time)%Q in
       if (aiohttp.status response =? 200)%Z then
         let status := PStr "healthy" in
         let error_message : option string := None in
         status ←
           (if String.eqb service_type "api" && contains "health" url then
              try_except
                (data ← lift_outcome (aiohttp.json response);
                 get data "status" (PStr "healthy"))
                (λ _, mret status)
            else if String.eqb service_type "model" then
              try_except
                (text ← lift_outcome (aiohttp.text response);
                 if negb (contains "healthy" (lower text))
                    && negb (contains "ok" (lower text))
                 then mret (PStr "degraded")
                 else mret status)
                (λ _, mret status)
            else mret status);
         mret (response_time, status, error_message)
       else
         mret (response_time, PStr "unhealthy",
               Some ("HTTP " +:+ pretty (aiohttp.status response))))
      (λ e,
         match e with
         | TimeoutError =>
             now ← time_time;
             mret ((now - start_time)%Q, PStr "unhealthy", Some "Timeout")
         | Exception msg =>
             now ← time_time;
             mret ((now - start_time)%Q, PStr "unhealthy", Some msg)
         end);
  ServiceCheck.new name url status
    (if float_truthy response_time
     then Some (round2 (response_time * 1000))
     else None)
    error_message "" (Some {["type" := service_type]}).

(** Generate a comprehensive health report. *)
Definition generate_report (self : t) (checks : list ServiceCheck.t)
    (duration : Q) : M HealthReport.t :=
  let healthy_count :=
    sum ((λ _, 1%Z) <$>
         List.filter (λ check, py_eq_str (ServiceCheck.status check) "healthy") checks) in
  let unhealthy_count :=
    sum ((λ _, 1%Z) <$>
         List.filter (λ check, py_eq_str (ServiceCheck.status check) "unhealthy") checks) in
  let unknown_count :=
    sum ((λ _, 1%Z) <$>
         List.filter (λ check, py_eq_str (ServiceCheck.status check) "unknown") checks) in
  let overall_status :=
    if (unhealthy_count >? 0)%Z then "unhealthy"
    else if (unknown_count >? 0)%Z then "degraded"
    else "healthy" in
  now ← datetime_now_isoformat;
  mret {| HealthReport.timestamp := now;
          HealthReport.overall_status := overall_status;
          HealthReport.total_services := Z.of_nat (length checks);
          HealthReport.healthy_services := healthy_count;
          HealthReport.unhealthy_services := unhealthy_count;
          HealthReport.unknown_services := unknown_count;
          HealthReport.checks := checks;
          HealthReport.duration := round2 duration |}.

(** [asyncio.gather] over the list of awaitables.  Every awaitable runs
    against its own share of the world, [worlds i] for position [i];
    [completion] lists the positions in the order in which the awaitables
    finish.  A finished awaitable stores its value in the slot of its own
    position; the first one to raise makes the whole call raise. *)
Fixpoint gather_loop {A} (tasks : list (M A)) (worlds : nat → Env)
    (completion : list nat) (slots : list (option A))
    : outcome (list (option A)) :=
  match completion with
  | [] => Returned slots
  | i :: rest =>
      match tasks !! i with
      | None => gather_loop tasks worlds rest slots
      | Some task =>
          match (task (worlds i) St0).1 with
          | Returned a => gather_loop tasks worlds rest (<[i := Some a]> slots)
          | Raised e => Raised e
          end
      end
  end.

(** [None]: some awaitable never finished, the call does not return. *)
Definition gather {A} (tasks : list (M A)) (worlds : nat → Env)
    (completion : list nat) : option (outcome (list A)) :=
  match gather_loop tasks worlds completion (replicate (length tasks) None) with
  | Raised e => Some (Raised e)
  | Returned slots => Returned <$> mapM id slots
  end.

(** Run health checks asynchronously for all services. *)
Definition run_health_checks_async (self : t)
    (services : list (gmap string string)) (worlds : nat → Env)
    (completion : list nat) : option (outcome (list ServiceCheck.t)) :=
  let tasks := (λ service, check_service_async self service) <$> services in
  gather tasks worlds completion.

(** Synchronously check a single service (fallback method). *)
Definition check_service_sync (self : t) (service : gmap string string)
    : M ServiceCheck.t :=
  name ← getitem service "name";
  url ← getitem service "url";
  service_type ← getitem service "type";
  start_time ← time_time;
  '(response_time, status, error_message) ←
    try_except
      (response ← requests_get (session self) (timeout self) url;
       now ← time_time;
       let response_time := (now - start_time)%Q in
       if (requests.status_code response =? 200)%Z then
         let status := PStr "healthy" in
         let error_message : option string := None in
         status ←
           (if String.eqb service_type "api" && contains "health" url then
              try_except
                (data ← lift_outcome (requests.json response);
                 get data "status" (PStr "healthy"))
                (λ _, mret status)
            else if String.eqb service_type "model" then
              if negb (contains "healthy" (lower (requests.text response)))
                 && negb (contains "ok" (lower (requests.text response)))
              then mret (PStr "degraded")
              else mret status
            else mret status);
         mret (response_time, status, error_message)
       else
         mret (response_time, PStr "unhealthy",
               Some ("HTTP " +:+ pretty (requests.status_code response))))
      (λ e,
         match e with
         | TimeoutError =>
             now ← time_time;
             mret ((now - start_time)%Q, PStr "unhealthy", Some "Timeout")
         | Exception msg =>
             now ← time_time;
             mret ((now - start_time)%Q, PStr "unhealthy", Some msg)
         end);
  ServiceCheck.new name url status
    (if float_truthy response_time
     then Some (round2 (response_time * 1000))
     else None)
    error_message "" (Some {["type" := service_type]}).

(** Run health checks synchronously for all services (fallback).  The
    line written to the log after each check is not represented. *)
Fixpoint run_health_checks_sync_loop (self : t)
    (services : list (gmap string string)) (results : list ServiceCheck.t)
    : M (list ServiceCheck.t) :=
  match services with
  | [] => mret results
  | service :: services =>
      result ← check_service_sync self service;
      run_health_checks_sync_loop self services (results ++ [result])%list
  end.

Definition run_health_checks_sync (self : t)
    (services : list (gmap string string)) : M (list ServiceCheck.t) :=
  run_health_checks_sync_loop self services [].

(** Add color coding to status text.  A status that is no string has no
    [upper]. *)
Definition _colorize_status (self : t) (status : pyval) : outcome string :=
  let status_upper :=
    match status with
    | PStr s => Returned (upper s)
    | _ => Raised (Exception ("'" +:+ type_name status
                                +:+ "' object has no attribute 'upper'"))
    end in
  if py_eq_str status "healthy" then
    match status_upper with
    | Returned u => Returned (esc +:+ "[92m" +:+ u +:+ esc +:+ "[0m")
    | Raised e => Raised e
    end
  else if py_eq_str status "unhealthy" then
    match status_upper with
    | Returned u => Returned (esc +:+ "[91m" +:+ u +:+ esc +:+ "[0m")
    | Raised e => Raised e
    end
  else if py_eq_str status "degraded" then
    match status_upper with
    | Returned u => Returned (esc +:+ "[93m" +:+ u +:+ esc +:+ "[0m")
    | Raised e => Raised e
    end
  else
    match status_upper with
    | Returned u => Returned (esc +:+ "[90m" +:+ u +:+ esc +:+ "[0m")
    | Raised e => Raised e
    end.

(** Get appropriate icon for status. *)
Definition _get_status_icon (self : t) (status : pyval) : string :=
  if py_eq_str status "healthy" then "âœ…"
  else if py_eq_str status "unhealthy" then "âŒ"
  else if py_eq_str status "degraded" then "âš ï¸"
  else "â“".

Section Rendering.
(** [str(x)] of a float, and [json.dumps(asdict(report), indent=2,
    default=str)]: the two renderings the standard library provides. *)
Context (str_float : Q → string) (json_dumps : HealthReport.t → string).

(** One row of the detailed listing. *)
Definition print_check (self : t) (verbose : bool) (check : ServiceCheck.t)
    : P unit :=
  let status_icon := _get_status_icon self (ServiceCheck.status check) in
  let response_time :=
    match ServiceCheck.response_time check with
    | Some x => if float_truthy x then str_float x +:+ "ms" else "N/A"
    | None => "N/A"
    end in
  colored ← lift_value (_colorize_status self (ServiceCheck.status check));
  print (status_icon +:+ " " +:+ ljust (ServiceCheck.name check) 20 +:+ " | "
         +:+ ljust colored 10 +:+ " | " +:+ ljust response_time 8 +:+ " | "
         +:+ ServiceCheck.url check);;
  if str_truthy (ServiceCheck.error_message check) && verbose then
    print (ljust "" 24 +:+ " â””â”€ Error: "
           +:+ str_optional (ServiceCheck.error_message check))
  else mret tt.

Fixpoint print_checks (self : t) (verbose : bool)
    (checks : list ServiceCheck.t) : P unit :=
  match checks with
  | [] => mret tt
  | check :: checks =>
      print_check self verbose check;;
      print_checks self verbose checks
  end.

(** Print the health report in a readable format. *)
Definition print_report (self : t) (report : HealthReport.t)
    (verbose json_output : bool) : P unit :=
  if json_output then
    print (json_dumps report)
  else
    print (nl +:+ repeat_str "=" 60);;
    print "ğŸ¥ MULTI-MODEL LLM DEPLOYMENT HEALTH REPORT";;
    print (repeat_str "=" 60);;
    print ("ğŸ“… Timestamp: " +:+ HealthReport.timestamp report);;
    print ("â±ï¸  Duration: " +:+ str_float (HealthReport.duration report) +:+ "s");;
    colored ← lift_value
      (_colorize_status self (PStr (HealthReport.overall_status report)));
    print ("ğŸ“Š Overall Status: " +:+ colored);;
    print ("ğŸ”¢ Total Services: " +:+ pretty (HealthReport.total_services report));;
    print ("âœ… Healthy: " +:+ pretty (HealthReport.healthy_services report));;
    print ("âŒ Unhealthy: " +:+ pretty (HealthReport.unhealthy_services report));;
    print ("â“ Unknown: " +:+ pretty (HealthReport.unknown_services report));;
    print (repeat_str "=" 60);;
    (if verbose then
       print (nl +:+ "ğŸ“‹ DETAILED SERVICE STATUS:");;
       print (repeat_str "-" 80);;
       print_checks self verbose (HealthReport.checks report)
     else mret tt);;
    print (nl +:+ repeat_str "=" 60);;
    if String.eqb (HealthReport.overall_status report) "healthy" then
      print "ğŸ‰ All systems operational!"
    else if String.eqb (HealthReport.overall_status report) "degraded" then
      print "âš ï¸  Some services have unknown status. Manual check recommended."
    else
      print "ğŸš¨ Critical services are down. Immediate attention required!".
End Rendering.
End Runtime.
End HealthChecker.

(** ** The program *)

(** A whole run: the world of the program itself, the text on standard
    output, and a call that may not return ([None]). *)
Definition IO (A : Type) : Type :=
  Env → St → string → option (outcome A * St * string).

#[global] Instance IO_ret : MRet IO :=
  λ A a _ st out, Some (Returned a, st, out).

#[global] Instance IO_bind : MBind IO := λ A B f m env st out,
  match m env st out with
  | Some (Returned a, st', out') => f a env st' out'
  | Some (Raised e, st', out') => Some (Raised e, st', out')
  | None => None
  end.

Definition lift_M {A} (m : M A) : IO A :=
  λ env st out, let '(o, st') := m env st in Some (o, st', out).

Definition lift_P {A} (p : P A) : IO A :=
  λ _ st out, let '(o, out') := p out in Some (o, st, out').

(** [await] of a call that returns, raises, or never completes. *)
Definition await {A} (call : option (outcome A)) : IO A :=
  λ _ st out,
    match call with
    | Some o => Some (o, st, out)
    | None => None
    end.

Section Program.
Context {py : Unicode}.
Context (str_float : Q → string) (json_dumps : HealthReport.t → string).

(** Main function to run health checks; the value is the exit code.  The
    probes run in [worlds] and complete in the order [completion].  The
    fallback on [ImportError] is not represented: no probe raises one. *)
Definition main (args : argparse.Namespace) (worlds : nat → Env)
    (completion : list nat) : IO Z :=
  let checker :=
    HealthChecker.__init__ (argparse.timeout args) (argparse.retries args) in
  let services := HealthChecker.get_services_to_check in
  lift_P (print_end
            (if negb (argparse.json args) then "ğŸ” Starting health checks..." else "") "");;
  (if negb (argparse.json args) then
     lift_P (print (" Checking " +:+ pretty (length services)
                    +:+ " services..."))
   else mret tt);;
  start_time ← lift_M time_time;
  checks ← await (HealthChecker.run_health_checks_async checker services
                    worlds completion);
  now ← lift_M time_time;
  let duration := (now - start_time)%Q in
  report ← lift_M (HealthChecker.generate_report checker checks duration);
  lift_P (HealthChecker.print_report str_float json_dumps checker report
            (argparse.verbose args) (argparse.json args));;
  (if argparse.alert args
      && (HealthReport.unhealthy_services report >? 0)%Z then
     lift_P (print (nl +:+ "ğŸš¨ ALERT: Some services are unhealthy!"));;
     let unhealthy_services :=
       List.filter
         (λ check, py_eq_str (ServiceCheck.status check) "unhealthy")
         checks in
     lift_P (foldr (λ service rest,
                      print ("  - " +:+ ServiceCheck.name service +:+ ": "
                             +:+ str_optional
                                   (ServiceCheck.error_message service));;
                      rest)
               (mret tt) unhealthy_services)
   else mret tt);;
  if String.eqb (HealthReport.overall_status report) "unhealthy" then mret 1%Z
  else if String.eqb (HealthReport.overall_status report) "degraded"
  then mret 2%Z
  else mret 0%Z.

(** The script: an exception that escapes [main] is logged and the exit
    code is 1.  The log and the keyboard interrupt are not represented. *)
Definition __main__ (args : argparse.Namespace) (worlds : nat → Env)
    (completion : list nat) : Env → St → string → option (Z * St * string) :=
  λ env st out,
    match main args worlds completion env st out with
    | Some (Returned code, st', out') => Some (code, st', out')
    | Some (Raised _, st', out') => Some (1%Z, st', out')
    | None => None
    end.
End Program.

(** * Specification vocabulary *)

Import HealthChecker.

(** A target: a service dictionary with the three keys the probe reads. *)
Definition is_target (service : gmap string string)
    (name url type : string) : Prop :=
  service !! "name" = Some name ∧
  service !! "url" = Some url ∧
  service !! "type" = Some type.

(** The one way for a probe to store [unknown]: an [api] target with
    [health] in its URL, answered by a 200 response whose body decodes to a
    JSON object with the string [unknown] in its [status] field. *)
Definition answers_unknown (self : t) (url type : string)
    (env : Env) (st : St) : Prop :=
  type = "api" ∧ contains "health" url = true ∧
  ∃ response d,
    network env url (timeout self) (requests_sent st)
      = aiohttp.Responds response ∧
    aiohttp.status response = 200%Z ∧
    aiohttp.json response = Returned (PDict d) ∧
    d !! "status" = Some (PStr "unknown").

(** Some check of the list has status [s]. *)
Definition has_status (s : string) (checks : list ServiceCheck.t) : Prop :=
  ∃ check, check ∈ checks ∧ ServiceCheck.status check = PStr s.

(** The status is none of the three the report counts. *)
Definition uncounted (check : ServiceCheck.t) : bool :=
  negb (py_eq_str (ServiceCheck.status check) "healthy") &&
  negb (py_eq_str (ServiceCheck.status check) "unhealthy") &&
  negb (py_eq_str (ServiceCheck.status check) "unknown").

(** [check] is what the probe of some target returned, in a world where the
    peer did not answer [unknown]. *)
Definition probed_without_unknown {py : Unicode} (self : t)
    (check : ServiceCheck.t) : Prop :=
  ∃ service name url type env st st',
    is_target service name url type ∧
    check_service_async self service env st = (Returned check, st') ∧
    ¬ answers_unknown self url type env st.

(** ** Scenarios *)

(** A runtime that converts the ASCII letters and nothing else: on ASCII
    text it is Python's. *)
Definition ascii_only : Unicode :=
  {| lower := ascii_lower; upper := ascii_upper;
     lower_ascii_text := λ _ _, eq_refl;
     upper_ascii_text := λ _ _, eq_refl |}.

(** The checker the command line builds by default. *)
Definition checker : HealthChecker.t := __init__ 10 3.

Definition litellm : gmap string string :=
  service "LiteLLM Proxy" "http://localhost:4000/health/liveliness" "api".

Definition vllm : gmap string string :=
  service "vLLM Qwen2.5-14B" "http://localhost:9998/health" "model".

Definition ragflow : gmap string string :=
  service "RAGFlow" "http://localhost:9380/" "web".

(** A response with status [code] whose body decodes as given. *)
Definition responds (code : Z) (json : outcome pyval)
    (text : outcome string) : aiohttp.reply :=
  aiohttp.Responds
    {| aiohttp.status := code; aiohttp.json := json; aiohttp.text := text |}.

(** A body that is plain text and no JSON. *)
Definition plain (body : string) (code : Z) : aiohttp.reply :=
  responds code (Raised (Exception "Expecting value")) (Returned body).

(** The Kelvin sign U+212A, in UTF-8. *)
Definition kelvin_sign : string :=
  String (ascii_of_nat 226) (String (ascii_of_nat 132)
    (String (ascii_of_nat 170) "")).

(** A body that is a JSON object with the one field [status]. *)
Definition json_status (v : pyval) (code : Z) : aiohttp.reply :=
  responds code (Returned (PDict {["status" := v]})) (Returned "{}").

(** The same answer in the hands of the requests session, for a status
    that its adapter does not retry: the status, the decoded JSON, and the
    text, empty where it could not be decoded. *)
Definition seen_by_requests (answer : aiohttp.reply) : requests.reply :=
  match answer with
  | aiohttp.Responds r =>
      requests.Responds
        {| requests.status_code := aiohttp.status r;
           requests.json := aiohttp.json r;
           requests.text :=
             match aiohttp.text r with
             | Returned text => text
             | Raised _ => ""
             end |}
  | aiohttp.Fails e => requests.Fails e
  end.

(** A world whose clock advances by [step] seconds from one reading to the
    next and whose peers give [reply n] to the [n]-th request. *)
Definition world (step : Q) (reply : nat → aiohttp.reply) : Env :=
  {| clock := λ n, (1700000000 + step * inject_Z (Z.of_nat n))%Q;
     calendar := λ _, "2024-01-01T00:00:00";
     network := λ _ _ n, reply n;
     session_outcome := λ _ _ _ n, seen_by_requests (reply n) |}.

(** A peer that answers 500 once and 200 from then on. *)
Definition recovers (n : nat) : aiohttp.reply :=
  match n with
  | O => plain "Internal Server Error" 500
  | S _ => plain "OK" 200
  end.

(** A check with nothing but a status. *)
Definition check_with (status : string) : ServiceCheck.t :=
  {| ServiceCheck.name := "svc"; ServiceCheck.url := "http://localhost/";
     ServiceCheck.status := PStr status; ServiceCheck.response_time := None;
     ServiceCheck.error_message := None;
     ServiceCheck.timestamp := "2024-01-01T00:00:00";
     ServiceCheck.metadata := Some ∅ |}.

(** A check whose status is a number, and a report that lists it after a
    healthy one. *)
Definition number_check : ServiceCheck.t :=
  {| ServiceCheck.name := "api"; ServiceCheck.url := "http://localhost/health";
     ServiceCheck.status := PInt 1; ServiceCheck.response_time := None;
     ServiceCheck.error_message := None;
     ServiceCheck.timestamp := "2024-01-01T00:00:00";
     ServiceCheck.metadata := Some ∅ |}.

Definition number_report : HealthReport.t :=
  {| HealthReport.timestamp := "2024-01-01T00:00:00";
     HealthReport.overall_status := "healthy";
     HealthReport.total_services := 2;
     HealthReport.healthy_services := 1;
     HealthReport.unhealthy_services := 0;
     HealthReport.unknown_services := 0;
     HealthReport.checks := [check_with "healthy"; number_check];
     HealthReport.duration := 1 # 4 |}.

(** The value a run returned, if it returned. *)
Definition returned {A} (run : outcome A * St) : option A :=
  match run.1 with
  | Returned a => Some a
  | Raised _ => None
  end.

(** ** The classification, as a function of the answer *)

(** What the asynchronous probe makes of an answer: the status and the
    error message, given the type and the URL of the target.  The probe is
    proved to compute it ([check_service_async_verdict]). *)
Definition async_verdict {py : Unicode} (type url : string)
    (answer : aiohttp.reply) : pyval * option string :=
  match answer with
  | aiohttp.Fails TimeoutError => (PStr "unhealthy", Some "Timeout")
  | aiohttp.Fails (Exception msg) => (PStr "unhealthy", Some msg)
  | aiohttp.Responds response =>
      if (aiohttp.status response =? 200)%Z then
        if String.eqb type "api" && contains "health" url then
          match aiohttp.json response with
          | Returned (PDict d) => (default (PStr "healthy") (d !! "status"), None)
          | _ => (PStr "healthy", None)
          end
        else if String.eqb type "model" then
          match aiohttp.text response with
          | Returned text =>
              if negb (contains "healthy" (lower text))
                 && negb (contains "ok" (lower text))
              then (PStr "degraded", None)
              else (PStr "healthy", None)
          | Raised _ => (PStr "healthy", None)
          end
        else (PStr "healthy", None)
      else
        (PStr "unhealthy", Some ("HTTP " +:+ pretty (aiohttp.status response)))
  end.

(** The state after one probe: two clock readings, one calendar reading,
    one request. *)
Definition after_probe (st : St) : St :=
  {| clock_reads := S (S (clock_reads st));
     calendar_reads := S (calendar_reads st);
     requests_sent := S (requests_sent st) |}.

(** The check a probe builds from a verdict. *)
Definition check_of_verdict (name url type : string) (env : Env) (st : St)
    (verdict : pyval * option string) : ServiceCheck.t :=
  let elapsed :=
    (clock env (S (clock_reads st)) - clock env (clock_reads st))%Q in
  {| ServiceCheck.name := name;
     ServiceCheck.url := url;
     ServiceCheck.status := verdict.1;
     ServiceCheck.response_time :=
       if float_truthy elapsed then Some (round2 (elapsed * 1000)) else None;
     ServiceCheck.error_message := verdict.2;
     ServiceCheck.timestamp := calendar env (calendar_reads st);
     ServiceCheck.metadata := Some {["type" := type]} |}.

(** The number of checks with status [s], as the report counts them. *)
Definition count_status (s : string) (checks : list ServiceCheck.t) : Z :=
  Z.of_nat (length (List.filter
    (λ check, py_eq_str (ServiceCheck.status check) s) checks)).

(** The worse of two overall statuses: unhealthy before degraded before
    healthy. *)
Definition worst (a b : string) : string :=
  if String.eqb a "unhealthy" || String.eqb b "unhealthy" then "unhealthy"
  else if String.eqb a "degraded" || String.eqb b "degraded" then "degraded"
  else "healthy".

(** The value is a string. *)
Definition is_str (v : pyval) : Prop := ∃ s, v = PStr s.

(** Stand-ins for the two renderings of the standard library. *)
Definition render_float (x : Q) : string :=
  pretty (Qnum x) +:+ "/" +:+ pretty (Zpos (Qden x)).

Definition render_json (report : HealthReport.t) : string :=
  "{overall_status: " +:+ HealthReport.overall_status report +:+ "}".


Definition verbose_args : argparse.Namespace :=
  {| argparse.verbose := true; argparse.json := false;
     argparse.alert := true; argparse.timeout := 10; argparse.retries := 3 |}.


(** Worlds for the probes of the registry: every peer answers [OK], but
    the first answers [first]. *)
Definition registry_worlds (first : aiohttp.reply) (i : nat) : Env :=
  world (1 # 4) (λ _, match i with O => first | S _ => plain "OK" 200 end).

(** * Properties *)

Ltac probe_unfold :=
  unfold check_service_async, getitem, ServiceCheck.new,
    ServiceCheck.__post_init__, session_get, time_time,
    datetime_now_isoformat, try_except, lift_outcome, get, raise,
    mbind, M_bind, mret, M_ret.

Ltac returns := do 2 eexists; split; [reflexivity|].

Ltac report_unfold :=
  unfold generate_report, datetime_now_isoformat, mbind, M_bind, mret, M_ret.

Ltac evaluated := vm_compute; reflexivity.

Section Claims.
Context {py : Unicode}.

(** ** Substrings *)

Lemma app_nil (b : string) : "" +:+ b = b.
Proof. reflexivity. Qed.

Lemma app_cons (c : ascii) (a b : string) :
  String c a +:+ b = String c (a +:+ b).
Proof. reflexivity. Qed.

Lemma app_assoc_str (a b c : string) : (a +:+ b) +:+ c = a +:+ b +:+ c.
Proof. induction a as [|x a IH]; [done|]. by rewrite !app_cons, IH. Qed.

Lemma prefix_app (n h : string) :
  String.prefix n h = true ↔ ∃ b, h = n +:+ b.
Proof.
  revert h. induction n as [|c n IH]; intros h.
  - split; [intros _; by exists h | by destruct h].
  - destruct h as [|c' h]; simpl.
    + split; [done | intros [b Hb]; discriminate].
    + destruct (Ascii.ascii_dec c c') as [->|Hne].
      * rewrite IH. split; intros [b Hb]; exists b;
          rewrite app_cons in *; congruence.
      * split; [done | intros [b Hb]; rewrite app_cons in Hb; congruence].
Qed.

Lemma contains_nil (n : string) : contains n "" = String.prefix n "".
Proof. unfold contains. apply orb_false_r. Qed.

Lemma contains_cons (n : string) (c : ascii) (h : string) :
  contains n (String c h) = String.prefix n (String c h) || contains n h.
Proof. reflexivity. Qed.

(** [contains] is the substring test. *)
Lemma contains_app (n h : string) :
  contains n h = true ↔ ∃ a b, h = a +:+ n +:+ b.
Proof.
  induction h as [|c h IH].
  - rewrite contains_nil, prefix_app. split.
    + intros [b Hb]. by exists "", b.
    + intros [a [b Hb]]. destruct a; [eauto | discriminate].
  - rewrite contains_cons, orb_true_iff, prefix_app, IH. split.
    + intros [[b Hb] | [a [b Hb]]].
      * by exists "", b.
      * exists (String c a), b. by rewrite app_cons, Hb.
    + intros [a [b Hb]]. destruct a as [|c' a].
      * left. eauto.
      * right. exists a, b. rewrite app_cons in Hb. congruence.
Qed.

(** Every text with [unhealthy] in it has [healthy] in it. *)
Lemma contains_unhealthy_healthy (h : string) :
  contains "unhealthy" h = true → contains "healthy" h = true.
Proof.
  rewrite !contains_app. intros (a & b & ->).
  exists (a +:+ "un"), b. by rewrite app_assoc_str.
Qed.

(** ** Running the probe *)

Lemma service_is_target (name url type : string) :
  is_target (service name url type) name url type.
Proof. by repeat split. Qed.

(** A float is falsy exactly when it is zero. *)
Lemma float_truthy_false (x : Q) : float_truthy x = false ↔ (x == 0)%Q.
Proof. unfold float_truthy. rewrite negb_false_iff. apply Qeq_bool_iff. Qed.

Lemma float_truthy_true (x : Q) : float_truthy x = true ↔ ¬ (x == 0)%Q.
Proof.
  rewrite <- float_truthy_false. destruct (float_truthy x); split; congruence.
Qed.

#[local] Opaque pretty contains round2 float_truthy.

Section Probe.
Context (self : t) (service : gmap string string) (name url type : string).
Context (env : Env) (st : St).
Hypothesis Htarget : is_target service name url type.

(** What the peer answers to the one request the probe sends. *)
Let answer : aiohttp.reply :=
  network env url (timeout self) (requests_sent st).

(** Time between the two clock readings of the probe. *)
Let elapsed : Q :=
  (clock env (S (clock_reads st)) - clock env (clock_reads st))%Q.

Ltac probe_cases resp Hcode :=
  destruct Htarget as (Hn & Hu & Ht); subst answer elapsed;
  probe_unfold; rewrite Hn, Hu, Ht; simpl;
  destruct (network env url _ _) as [resp | [|?]]; simpl;
  [destruct (Z.eqb_spec (aiohttp.status resp) 200) as [Hcode|Hcode]; simpl;
   [destruct (String.eqb_spec type "api"); simpl;
    [destruct (contains "health" url) eqn:?; simpl|];
    [destruct (aiohttp.json resp) as [[]|] eqn:?; simpl
    |destruct (String.eqb_spec type "model"); simpl;
     [let txt := fresh "txt" in
      destruct (aiohttp.text resp) as [txt|?] eqn:?; simpl;
      [destruct (contains "healthy" (lower txt)) eqn:?,
         (contains "ok" (lower txt)) eqn:?; simpl|]
     |]..]
   |]
  |..].

Ltac probe_finish :=
  intros; try congruence; returns; simpl;
  repeat split; intros; simplify_eq/=;
  repeat match goal with
         | H1 : ?x = _, H2 : ?x = _ |- _ => rewrite H1 in H2
         end;
  simplify_eq/=; try done; try congruence;
  try (intuition congruence);
  try (by match goal with H : _ !! _ = _ |- _ => rewrite H end).

(** C2.  Whatever the peer does with the request, the probe of a target
    returns a result and does not raise.  When the request times out the
    result is unhealthy with message [Timeout]; when it fails with any other
    exception the result is unhealthy with the text of the exception; when a
    response other than 200 arrives the result is unhealthy with message
    [HTTP <code>].  In each case the message is present. *)
Theorem probe_failure_is_unhealthy :
  ∃ r st', check_service_async self service env st = (Returned r, st') ∧
    match answer with
    | aiohttp.Fails TimeoutError =>
        ServiceCheck.status r = PStr "unhealthy" ∧
        ServiceCheck.error_message r = Some "Timeout"
    | aiohttp.Fails (Exception msg) =>
        ServiceCheck.status r = PStr "unhealthy" ∧
        ServiceCheck.error_message r = Some msg
    | aiohttp.Responds response =>
        aiohttp.status response ≠ 200%Z →
        ServiceCheck.status r = PStr "unhealthy" ∧
        ServiceCheck.error_message r =
          Some ("HTTP " +:+ pretty (aiohttp.status response))
    end.
Proof. probe_cases resp Hcode; returns; done. Qed.

(** The status of a model target answered by a 200 response with a
    readable body. *)
Lemma model_text_decides (response : aiohttp.ClientResponse) (text : string) :
  type = "model" →
  answer = aiohttp.Responds response →
  aiohttp.status response = 200%Z →
  aiohttp.text response = Returned text →
  ∃ r st', check_service_async self service env st = (Returned r, st') ∧
    ServiceCheck.status r =
      if contains "healthy" (lower text) || contains "ok" (lower text)
      then PStr "healthy" else PStr "degraded".
Proof.
  probe_cases resp Hcode; probe_finish;
    repeat match goal with
           | H : contains _ _ = _ |- _ => rewrite H; clear H
           end;
    done.
Qed.

(** C5.  For a target of type [model] answered by a 200 response: a body
    whose lower-cased text has neither [healthy] nor [ok] in it gives
    status degraded; a body with either of them gives status healthy; and
    when reading the body raises, the status stays healthy.  The lower case
    is the one of the runtime, so every character that Python lowers to a
    letter of the two words counts; for a body of ASCII characters the test
    is the one on the letters A to Z turned into a to z. *)
Theorem model_body_classification (response : aiohttp.ClientResponse) :
  type = "model" →
  answer = aiohttp.Responds response →
  aiohttp.status response = 200%Z →
  ∃ r st', check_service_async self service env st = (Returned r, st') ∧
    (∀ text, aiohttp.text response = Returned text →
       contains "healthy" (lower text) = false →
       contains "ok" (lower text) = false →
       ServiceCheck.status r = PStr "degraded") ∧
    (∀ text, aiohttp.text response = Returned text →
       contains "healthy" (lower text) = true ∨
       contains "ok" (lower text) = true →
       ServiceCheck.status r = PStr "healthy") ∧
    (∀ e, aiohttp.text response = Raised e →
       ServiceCheck.status r = PStr "healthy") ∧
    (∀ text, aiohttp.text response = Returned text →
       is_ascii text = true →
       ServiceCheck.status r =
         if contains "healthy" (ascii_lower text)
            || contains "ok" (ascii_lower text)
         then PStr "healthy" else PStr "degraded").
Proof.
  intros Hty Hans Hcode'.
  cut (∃ r st', check_service_async self service env st = (Returned r, st') ∧
         (∀ text, aiohttp.text response = Returned text →
            ServiceCheck.status r =
              if contains "healthy" (lower text) || contains "ok" (lower text)
              then PStr "healthy" else PStr "degraded") ∧
         (∀ e, aiohttp.text response = Raised e →
            ServiceCheck.status r = PStr "healthy")).
  - intros (r & st' & Hrun & Htext & Hraised). exists r, st'.
    split_and!; [done| | |done|].
    + intros text Hbody Hh Ho. by rewrite (Htext text Hbody), Hh, Ho.
    + intros text Hbody [Hh|Ho]; rewrite (Htext text Hbody).
      * by rewrite Hh.
      * rewrite Ho. by rewrite orb_true_r.
    + intros text Hbody Hascii.
      by rewrite (Htext text Hbody), (lower_ascii_text text Hascii).
  - revert Hty Hans Hcode'.
    probe_cases resp Hcode; probe_finish;
      repeat match goal with
             | H : contains _ _ = _ |- _ => rewrite H; clear H
             end;
      done.
Qed.

(** C6.  For a target of type [api] whose URL has [health] in it, answered
    by a 200 response: when the body decodes to a JSON object with a
    [status] field, the value of that field becomes the status of the
    result as it is; when the field is missing, when the body decodes to
    something that is not an object, or when decoding raises, the status is
    healthy. *)
Theorem api_health_status_adopted (response : aiohttp.ClientResponse) :
  type = "api" →
  contains "health" url = true →
  answer = aiohttp.Responds response →
  aiohttp.status response = 200%Z →
  ∃ r st', check_service_async self service env st = (Returned r, st') ∧
    (∀ d v, aiohttp.json response = Returned (PDict d) →
       d !! "status" = Some v → ServiceCheck.status r = v) ∧
    (∀ d, aiohttp.json response = Returned (PDict d) →
       d !! "status" = None → ServiceCheck.status r = PStr "healthy") ∧
    (∀ data, aiohttp.json response = Returned data →
       (∀ d, data ≠ PDict d) → ServiceCheck.status r = PStr "healthy") ∧
    (∀ e, aiohttp.json response = Raised e →
       ServiceCheck.status r = PStr "healthy").
Proof. probe_cases resp Hcode; probe_finish. Qed.

(** C10.  For a target of type [model] answered by a 200 response whose
    lower-cased body has [unhealthy] in it, the status is healthy: the
    substring test for [healthy] succeeds inside [unhealthy]. *)
Theorem model_body_unhealthy_is_healthy
    (response : aiohttp.ClientResponse) (body : string) :
  type = "model" →
  answer = aiohttp.Responds response →
  aiohttp.status response = 200%Z →
  aiohttp.text response = Returned body →
  contains "unhealthy" (lower body) = true →
  ∃ r st', check_service_async self service env st = (Returned r, st') ∧
    ServiceCheck.status r = PStr "healthy".
Proof.
  intros Hty Hans Hcode' Hbody Hun.
  apply contains_unhealthy_healthy in Hun. revert Hty Hans Hcode' Hbody.
  probe_cases resp Hcode; probe_finish.
Qed.

(** C4.  The asynchronous probe sends one request and no more.  When the
    answer carries a status of the retry list (429, 500, 502, 503, 504) the
    probe does not ask again, whatever [max_retries] is: the request
    counter advances by one and the result is unhealthy with message
    [HTTP <code>]. *)
Theorem forced_status_not_retried (response : aiohttp.ClientResponse) :
  answer = aiohttp.Responds response →
  aiohttp.status response ∈ [429; 500; 502; 503; 504]%Z →
  ∃ r st', check_service_async self service env st = (Returned r, st') ∧
    requests_sent st' = S (requests_sent st) ∧
    ServiceCheck.status r = PStr "unhealthy" ∧
    ServiceCheck.error_message r =
      Some ("HTTP " +:+ pretty (aiohttp.status response)).
Proof.
  intros Hans Hin.
  assert (aiohttp.status response ≠ 200%Z) as Hne.
  { intros Heq. rewrite Heq, list_elem_of_In in Hin. simpl in Hin. lia. }
  revert Hans Hne. clear Hin.
  probe_cases resp Hcode; probe_finish.
Qed.

(** C9 (amended).  Whatever the outcome, the probe reads the clock twice,
    and the latency of the result is the time between the two readings in
    milliseconds, rounded to two decimals, when that time is not zero; the
    latency is absent exactly when the two readings are equal. *)
Theorem latency_recorded_unless_zero :
  ∃ r st', check_service_async self service env st = (Returned r, st') ∧
    clock_reads st' = S (S (clock_reads st)) ∧
    ((elapsed == 0)%Q → ServiceCheck.response_time r = None) ∧
    (¬ (elapsed == 0)%Q →
       ServiceCheck.response_time r = Some (round2 (elapsed * 1000))).
Proof.
  probe_cases resp Hcode;
    (returns; simpl; split; [done|];
     split; intros Hz;
     [apply float_truthy_false in Hz | apply float_truthy_true in Hz];
     by rewrite Hz).
Qed.
Lemma status_unknown_iff :
  ∃ r st', check_service_async self service env st = (Returned r, st') ∧
    (ServiceCheck.status r = PStr "unknown" ↔
     answers_unknown self url type env st).
Proof.
  unfold answers_unknown.
  probe_cases resp Hcode; returns; simpl;
    (split;
     [try discriminate
     |intros (? & ? & response & d' & ? & ? & ? & ?); simplify_eq/=;
      try congruence]).
  - intros Hst. split_and!; [done..|]. exists resp, d. split_and!; [done..|].
    destruct (d !! "status"); simpl in Hst; [congruence | discriminate].
  - assert (d' = d) as -> by congruence.
    by match goal with H : _ !! _ = _ |- _ => rewrite H end.
Qed.

Lemma probe_keeps_name_and_url :
  ∃ r st', check_service_async self service env st = (Returned r, st') ∧
    ServiceCheck.name r = name ∧ ServiceCheck.url r = url.
Proof. probe_cases resp Hcode; by returns. Qed.

End Probe.

(** Python lowers the Kelvin sign to the letter [k]: under such a runtime a
    body made of [O] and the sign has [ok] in its lower case, and the model
    is healthy. *)
Lemma kelvin_sign_counts_as_k :
  lower ("O" +:+ kelvin_sign) = "ok" →
  ∃ r st',
    check_service_async checker vllm
      (world (1 # 4) (λ _, plain ("O" +:+ kelvin_sign) 200)) St0
      = (Returned r, st') ∧
    ServiceCheck.status r = PStr "healthy".
Proof.
  intros Hlower.
  destruct (model_text_decides checker vllm "vLLM Qwen2.5-14B"
              "http://localhost:9998/health" "model"
              (world (1 # 4) (λ _, plain ("O" +:+ kelvin_sign) 200)) St0
              (service_is_target _ _ _) _ ("O" +:+ kelvin_sign)
              eq_refl eq_refl eq_refl eq_refl)
    as (r & st' & Hrun & Hstatus).
  exists r, st'. split; [exact Hrun|].
  rewrite Hstatus, Hlower. by vm_compute.
Qed.

(** ** Aggregation *)

Lemma py_eq_str_true (v : pyval) (s : string) :
  py_eq_str v s = true ↔ v = PStr s.
Proof.
  destruct v; simpl; try (split; [discriminate | congruence]).
  rewrite String.eqb_eq. split; congruence.
Qed.

Lemma foldl_add_ones {A} (l : list A) (a : Z) :
  foldl Z.add a ((λ _, 1%Z) <$> l) = (a + Z.of_nat (length l))%Z.
Proof.
  revert a. induction l as [|x l IH]; intros a; simpl; [lia|].
  rewrite IH. lia.
Qed.

Lemma sum_ones {A} (l : list A) :
  sum ((λ _, 1%Z) <$> l) = Z.of_nat (length l).
Proof. unfold sum. rewrite foldl_add_ones. lia. Qed.

(** A comprehension count is positive exactly when some check matches. *)
Lemma count_positive (s : string) (checks : list ServiceCheck.t) :
  (sum ((λ _, 1%Z) <$>
        List.filter (λ check, py_eq_str (ServiceCheck.status check) s) checks)
     >? 0)%Z = true ↔ has_status s checks.
Proof.
  rewrite sum_ones, Z.gtb_lt. unfold has_status.
  induction checks as [|c checks IH].
  - simpl. split; [lia | intros (c & Hc & _); by apply elem_of_nil in Hc].
  - simpl. destruct (py_eq_str (ServiceCheck.status c) s) eqn:Hs.
    + split; [intros _ | simpl length; lia].
      exists c. split; [left | by apply py_eq_str_true].
    + rewrite IH. split.
      * intros (c' & Hc' & Hst). exists c'. split; [by right | done].
      * intros (c' & Hc' & Hst). apply elem_of_cons in Hc' as [-> | Hc'].
        -- apply py_eq_str_true in Hst. congruence.
        -- eauto.
Qed.

Lemma count_split (checks : list ServiceCheck.t) :
  (Z.of_nat (length (List.filter (λ check, py_eq_str (ServiceCheck.status check) "healthy") checks)) +
   Z.of_nat (length (List.filter (λ check, py_eq_str (ServiceCheck.status check) "unhealthy") checks)) +
   Z.of_nat (length (List.filter (λ check, py_eq_str (ServiceCheck.status check) "unknown") checks)) +
   Z.of_nat (length (List.filter uncounted checks)))%Z
  = Z.of_nat (length checks).
Proof.
  induction checks as [|c checks IH]; [done|].
  unfold uncounted in *. simpl.
  destruct (ServiceCheck.status c) as [| | | |s| |]; simpl; try lia.
  destruct (String.eqb_spec s "healthy") as [->|?]; simpl; [lia|].
  destruct (String.eqb_spec s "unhealthy") as [->|?]; simpl; [lia|].
  destruct (String.eqb_spec s "unknown") as [->|?]; simpl; lia.
Qed.

(** Among checks that are healthy but for one degraded, no other status
    occurs. *)
Lemma degraded_among_healthy (s : string) (before after : list ServiceCheck.t)
    (check : ServiceCheck.t) :
  ServiceCheck.status check = PStr "degraded" →
  Forall (λ c, ServiceCheck.status c = PStr "healthy") (before ++ after)%list →
  has_status s (before ++ check :: after)%list →
  s = "healthy" ∨ s = "degraded".
Proof.
  intros Hdeg Hok (c & Hc & Hst).
  rewrite Forall_app, !Forall_forall in Hok. destruct Hok as [Hb Ha].
  apply elem_of_app in Hc as [Hc | Hc]; [apply Hb in Hc; left; congruence|].
  apply elem_of_cons in Hc as [-> | Hc]; [right; congruence|].
  apply Ha in Hc. left. congruence.
Qed.

(** C1.  Building the report always succeeds.  Its overall status is
    unhealthy exactly when some check is unhealthy; otherwise it is degraded
    exactly when some check is unknown; otherwise it is healthy.  In
    particular one degraded check among healthy ones leaves the overall
    status healthy. *)
Theorem overall_status_precedence (self : t) (checks : list ServiceCheck.t)
    (duration : Q) (env : Env) (st : St) :
  ∃ report st',
    generate_report self checks duration env st = (Returned report, st') ∧
    (HealthReport.overall_status report = "unhealthy" ↔
       has_status "unhealthy" checks) ∧
    (HealthReport.overall_status report = "degraded" ↔
       ¬ has_status "unhealthy" checks ∧ has_status "unknown" checks) ∧
    (HealthReport.overall_status report = "healthy" ↔
       ¬ has_status "unhealthy" checks ∧ ¬ has_status "unknown" checks) ∧
    (∀ before check after,
       checks = (before ++ check :: after)%list →
       ServiceCheck.status check = PStr "degraded" →
       Forall (λ c, ServiceCheck.status c = PStr "healthy")
         (before ++ after)%list →
       HealthReport.overall_status report = "healthy").
Proof.
  report_unfold. returns. simpl.
  pose proof (count_positive "unhealthy" checks) as Hbad.
  pose proof (count_positive "unknown" checks) as Hunk.
  assert (∀ s before check after,
    checks = (before ++ check :: after)%list →
    ServiceCheck.status check = PStr "degraded" →
    Forall (λ c, ServiceCheck.status c = PStr "healthy") (before ++ after)%list →
    has_status s checks → s = "healthy" ∨ s = "degraded") as Hmix.
  { intros s before check after -> Hdeg Hok. eapply degraded_among_healthy; eauto. }
  destruct (_ >? 0)%Z; [|destruct (_ >? 0)%Z]; simpl.
  - assert (has_status "unhealthy" checks) as Hu by by apply Hbad.
    split_and!; [done | split; [done | tauto] | split; [done | tauto] |].
    intros before check after Heq Hdeg Hok.
    destruct (Hmix _ _ _ _ Heq Hdeg Hok Hu); discriminate.
  - assert (¬ has_status "unhealthy" checks) as Hnu by (rewrite <- Hbad; done).
    assert (has_status "unknown" checks) as Hk by by apply Hunk.
    split_and!; [split; [done | tauto] | done | split; [done | tauto] |].
    intros before check after Heq Hdeg Hok.
    destruct (Hmix _ _ _ _ Heq Hdeg Hok Hk); discriminate.
  - assert (¬ has_status "unhealthy" checks) as Hnu by (rewrite <- Hbad; done).
    assert (¬ has_status "unknown" checks) as Hnk by (rewrite <- Hunk; done).
    split_and!; [split; [done | tauto] | split; [done | tauto] | done | done].
Qed.

(** C8.  In every report the total is the number of checks, the healthy,
    unhealthy and unknown counts together do not exceed it, and what is
    missing is the number of checks whose status is none of the three
    (degraded, for one). *)
Theorem counted_services_bounded (self : t) (checks : list ServiceCheck.t)
    (duration : Q) (env : Env) (st : St) :
  ∃ report st',
    generate_report self checks duration env st = (Returned report, st') ∧
    HealthReport.total_services report = Z.of_nat (length checks) ∧
    (HealthReport.healthy_services report +
     HealthReport.unhealthy_services report +
     HealthReport.unknown_services report
     ≤ HealthReport.total_services report)%Z ∧
    (HealthReport.total_services report -
     (HealthReport.healthy_services report +
      HealthReport.unhealthy_services report +
      HealthReport.unknown_services report))%Z
    = Z.of_nat (length (List.filter uncounted checks)).
Proof.
  report_unfold. returns. simpl. rewrite !sum_ones.
  pose proof (count_split checks). repeat split; lia.
Qed.

(** ** The unknown status *)

(** What [generate_report] returns, field by field. *)
Lemma generate_report_returns (self : t) (checks : list ServiceCheck.t)
    (duration : Q) (env : Env) (st : St) :
  ∃ report st',
    generate_report self checks duration env st = (Returned report, st') ∧
    HealthReport.checks report = checks ∧
    HealthReport.total_services report = Z.of_nat (length checks) ∧
    HealthReport.unknown_services report =
      Z.of_nat (length (List.filter
        (λ check, py_eq_str (ServiceCheck.status check) "unknown") checks)) ∧
    HealthReport.overall_status report =
      if (HealthReport.unhealthy_services report >? 0)%Z then "unhealthy"
      else if (HealthReport.unknown_services report >? 0)%Z then "degraded"
      else "healthy".
Proof. report_unfold. returns. simpl. by rewrite !sum_ones. Qed.

Lemma count_zero (s : string) (checks : list ServiceCheck.t) :
  ¬ has_status s checks →
  length (List.filter
    (λ check, py_eq_str (ServiceCheck.status check) s) checks) = 0.
Proof.
  intros Hnone. pose proof (count_positive s checks) as Hpos.
  rewrite sum_ones, Z.gtb_lt in Hpos.
  destruct (length _); [done|]. exfalso. apply Hnone, Hpos. lia.
Qed.

(** C7 (amended).  The probe of a target stores status [unknown] exactly
    when the target is of type [api] with [health] in its URL and a 200
    response carries a JSON object whose [status] field is the string
    [unknown].  Consequently, for every list of results of probes that
    were not answered that way, the unknown count of the report is 0 and
    its overall status is not degraded. *)
Theorem unknown_only_from_api_body (self : t) :
  (∀ service name url type env st r st',
     is_target service name url type →
     check_service_async self service env st = (Returned r, st') →
     (ServiceCheck.status r = PStr "unknown" ↔
      answers_unknown self url type env st)) ∧
  (∀ checks duration env st,
     Forall (probed_without_unknown self) checks →
     ∃ report st',
       generate_report self checks duration env st = (Returned report, st') ∧
       HealthReport.unknown_services report = 0%Z ∧
       HealthReport.overall_status report ≠ "degraded").
Proof.
  assert (∀ service name url type env st r st',
     is_target service name url type →
     check_service_async self service env st = (Returned r, st') →
     (ServiceCheck.status r = PStr "unknown" ↔
      answers_unknown self url type env st)) as Hone.
  { intros service name url type env st r st' Htarget Hrun.
    destruct (status_unknown_iff self service name url type env st Htarget)
      as (r' & st'' & Hrun' & Hiff).
    rewrite Hrun in Hrun'. by simplify_eq. }
  split; [exact Hone|].
  intros checks duration env st Hall.
  assert (¬ has_status "unknown" checks) as Hnone.
  { intros (c & Hc & Hst). rewrite Forall_forall in Hall.
    destruct (Hall c Hc) as (service & name & url & type & env' & st0 & st1
                             & Htarget & Hrun & Hnot).
    apply Hnot. by eapply Hone. }
  destruct (generate_report_returns self checks duration env st)
    as (report & st' & Hrun & _ & _ & Hcount & Hoverall).
  rewrite (count_zero _ _ Hnone) in Hcount.
  exists report, st'. split_and!; [done..|].
  rewrite Hoverall, Hcount. by destruct (_ >? 0)%Z.
Qed.

(** ** Fan-out and fan-in *)

Section Gather.
Context {A : Type} (tasks : list (M A)) (worlds : nat → Env).
Context (values : list A).

(** Every awaitable returns, the one at position [i] with [values !! i]. *)
Hypothesis Hreturns : ∀ i task,
  tasks !! i = Some task →
  ∃ a, values !! i = Some a ∧ (task (worlds i) St0).1 = Returned a.
Hypothesis Hlength : length values = length tasks.

Lemma gather_loop_slots (completion : list nat) (slots : list (option A)) :
  length slots = length tasks →
  ∃ slots',
    gather_loop tasks worlds completion slots = Returned slots' ∧
    length slots' = length tasks ∧
    ∀ i, (i ∈ completion → i < length tasks →
            slots' !! i = Some (values !! i)) ∧
         (i ∉ completion → slots' !! i = slots !! i).
Proof.
  revert slots. induction completion as [|i rest IH]; intros slots Hlen.
  - exists slots. split_and!; [done..|]. intros i. split; [|done].
    intros Hi. by apply elem_of_nil in Hi.
  - simpl. destruct (tasks !! i) as [task|] eqn:Htask.
    + destruct (Hreturns i task Htask) as (a & Ha & Hrun). rewrite Hrun.
      destruct (IH (<[i := Some a]> slots)) as (slots' & Hloop & Hlen' & Hslots).
      { by rewrite length_insert. }
      exists slots'. split_and!; [done..|]. intros j. split.
      * intros Hj Hlt. destruct (decide (j ∈ rest)) as [Hin|Hnin].
        { by apply Hslots. }
        apply elem_of_cons in Hj as [-> | Hj]; [|done].
        destruct (Hslots i) as [_ Hi]. rewrite Hi by done.
        rewrite list_lookup_insert_eq, Ha; [done | lia].
      * intros Hj. apply not_elem_of_cons in Hj as [Hne Hj].
        destruct (Hslots j) as [_ Hj']. rewrite Hj' by done.
        by rewrite list_lookup_insert_ne.
    + destruct (IH slots Hlen) as (slots' & Hloop & Hlen' & Hslots).
      exists slots'. split_and!; [done..|]. intros j. split.
      * intros Hj Hlt. apply elem_of_cons in Hj as [-> | Hj].
        { apply lookup_ge_None_1 in Htask. unfold M in *. lia. }
        by apply Hslots.
      * intros Hj. apply not_elem_of_cons in Hj as [Hne Hj]. by apply Hslots.
Qed.

(** Whatever the order of completion, [gather] returns the values in the
    order of the awaitables. *)
Lemma gather_in_order (completion : list nat) :
  completion ≡ₚ seq 0 (length tasks) →
  gather tasks worlds completion = Some (Returned values).
Proof.
  intros Hperm. unfold gather.
  destruct (gather_loop_slots completion (replicate (length tasks) None))
    as (slots & -> & Hlen & Hslots).
  { apply length_replicate. }
  assert (slots = Some <$> values) as ->.
  { apply list_eq. intros i. rewrite list_lookup_fmap.
    destruct (decide (i < length tasks)) as [Hlt|Hge].
    - destruct (Hslots i) as [Hi _]. rewrite Hi; [|by rewrite Hperm, elem_of_seq; lia|done].
      destruct (lookup_lt_is_Some_2 values i) as [a ->]; [lia | done].
    - rewrite !lookup_ge_None_2; [done | lia..]. }
  by rewrite mapM_fmap_Some.
Qed.
End Gather.

(** C3.  For every list of targets and every order in which the concurrent
    probes complete, running all health checks returns one check per
    target, the check at each position being the result of probing the
    target at that position (with its name and URL), and the report built
    from them holds these checks in this order and counts as many services
    as there are targets. *)
Theorem one_check_per_target_in_order (self : t)
    (services : list (gmap string string)) (worlds : nat → Env)
    (completion : list nat) :
  Forall (λ service, ∃ name url type, is_target service name url type)
    services →
  completion ≡ₚ seq 0 (length services) →
  ∃ checks,
    run_health_checks_async self services worlds completion
      = Some (Returned checks) ∧
    length checks = length services ∧
    (∀ i service, services !! i = Some service →
       ∃ check, checks !! i = Some check ∧
         (check_service_async self service (worlds i) St0).1
           = Returned check ∧
         service !! "name" = Some (ServiceCheck.name check) ∧
         service !! "url" = Some (ServiceCheck.url check)) ∧
    (∀ duration env st, ∃ report st',
       generate_report self checks duration env st = (Returned report, st') ∧
       HealthReport.checks report = checks ∧
       HealthReport.total_services report = Z.of_nat (length services)).
Proof.
  intros Htargets Hperm.
  set (value := λ (i : nat) (service : gmap string string),
    match (check_service_async self service (worlds i) St0).1 with
    | Returned r => r
    | Raised _ =>
        {| ServiceCheck.name := ""; ServiceCheck.url := "";
           ServiceCheck.status := PNone; ServiceCheck.response_time := None;
           ServiceCheck.error_message := None; ServiceCheck.timestamp := "";
           ServiceCheck.metadata := None |}
    end).
  assert (∀ i service, services !! i = Some service →
    (check_service_async self service (worlds i) St0).1
      = Returned (value i service) ∧
    service !! "name" = Some (ServiceCheck.name (value i service)) ∧
    service !! "url" = Some (ServiceCheck.url (value i service))) as Hvalue.
  { intros i service Hi. rewrite Forall_forall in Htargets.
    destruct (Htargets service) as (name & url & type & Htarget).
    { by eapply list_elem_of_lookup_2. }
    destruct (probe_keeps_name_and_url self service name url type
                (worlds i) St0 Htarget) as (r & st' & Hrun & <- & <-).
    unfold value. rewrite Hrun. simpl.
    destruct Htarget as (? & ? & ?). done. }
  exists (imap value services).
  assert (length (imap value services) = length services) as Hlen
    by apply length_imap.
  split_and!; [|done| |].
  - unfold run_health_checks_async. apply gather_in_order.
    + intros i task Htask. rewrite list_lookup_fmap in Htask.
      destruct (services !! i) as [service|] eqn:Hi; [|done].
      simpl in Htask. injection Htask as <-.
      exists (value i service). rewrite list_lookup_imap, Hi.
      split; [done|]. by apply Hvalue.
    + by rewrite length_fmap.
    + by rewrite length_fmap.
  - intros i service Hi. exists (value i service).
    rewrite list_lookup_imap, Hi. split; [done|]. by apply Hvalue.
  - intros duration env st.
    destruct (generate_report_returns self (imap value services) duration env st)
      as (report & st' & Hrun & Hchecks & Htotal & _).
    exists report, st'. by rewrite Htotal, Hlen.
Qed.

End Claims.

(** ** The properties at work *)

(** The scenarios run under [ascii_only]: the bodies and the statuses in
    them are ASCII text, on which it is Python's runtime. *)
Section ClaimsAtWork.
#[local] Existing Instance ascii_only.

(** A probe that times out. *)
Lemma probe_failure_is_unhealthy_witness :
  is_target ragflow "RAGFlow" "http://localhost:9380/" "web" ∧
  ∃ r st',
    check_service_async checker ragflow
      (world (1 # 4) (λ _, aiohttp.Fails TimeoutError)) St0 = (Returned r, st') ∧
    ServiceCheck.status r = PStr "unhealthy" ∧
    ServiceCheck.error_message r = Some "Timeout".
Proof.
  split; [apply service_is_target|].
  apply (probe_failure_is_unhealthy checker ragflow "RAGFlow"
           "http://localhost:9380/" "web"
           (world (1 # 4) (λ _, aiohttp.Fails TimeoutError)) St0).
  apply service_is_target.
Defined.

(** A model that answers [Service OK], and one that answers [I Am ALIVE]:
    the capitals of the first body are lowered before the test. *)
Lemma model_body_classification_witness :
  is_target vllm "vLLM Qwen2.5-14B" "http://localhost:9998/health" "model" ∧
  (∃ r st',
     check_service_async checker vllm
       (world (1 # 4) (λ _, plain "Service OK" 200)) St0 = (Returned r, st') ∧
     ServiceCheck.status r = PStr "healthy") ∧
  (∃ r st',
     check_service_async checker vllm
       (world (1 # 4) (λ _, plain "I Am ALIVE" 200)) St0 = (Returned r, st') ∧
     ServiceCheck.status r = PStr "degraded").
Proof.
  split; [apply service_is_target|]. split.
  - destruct (model_body_classification checker vllm "vLLM Qwen2.5-14B"
                "http://localhost:9998/health" "model"
                (world (1 # 4) (λ _, plain "Service OK" 200)) St0
                (service_is_target _ _ _) _ eq_refl eq_refl eq_refl)
      as (r & st' & Hrun & _ & Hhealthy & _).
    exists r, st'. split; [exact Hrun|].
    apply (Hhealthy "Service OK"); [evaluated|right; evaluated].
  - destruct (model_body_classification checker vllm "vLLM Qwen2.5-14B"
                "http://localhost:9998/health" "model"
                (world (1 # 4) (λ _, plain "I Am ALIVE" 200)) St0
                (service_is_target _ _ _) _ eq_refl eq_refl eq_refl)
      as (r & st' & Hrun & Hdegraded & _).
    exists r, st'. split; [exact Hrun|].
    apply (Hdegraded "I Am ALIVE"); evaluated.
Defined.

(** An API that answers [{"status": "ok"}]. *)
Lemma api_health_status_adopted_witness :
  is_target litellm "LiteLLM Proxy"
    "http://localhost:4000/health/liveliness" "api" ∧
  ∃ r st',
    check_service_async checker litellm
      (world (1 # 4) (λ _, json_status (PStr "ok") 200)) St0
      = (Returned r, st') ∧
    ServiceCheck.status r = PStr "ok".
Proof.
  split; [apply service_is_target|].
  destruct (api_health_status_adopted checker litellm "LiteLLM Proxy"
              "http://localhost:4000/health/liveliness" "api"
              (world (1 # 4) (λ _, json_status (PStr "ok") 200)) St0
              (service_is_target _ _ _) _ eq_refl ltac:(evaluated)
              eq_refl eq_refl)
    as (r & st' & Hrun & Hadopt & _).
  exists r, st'. split; [exact Hrun|].
  apply (Hadopt {["status" := PStr "ok"]}); evaluated.
Defined.

(** A model that answers [UNHEALTHY]. *)
Lemma model_body_unhealthy_is_healthy_witness :
  is_target vllm "vLLM Qwen2.5-14B" "http://localhost:9998/health" "model" ∧
  ∃ r st',
    check_service_async checker vllm
      (world (1 # 4) (λ _, plain "UNHEALTHY" 200)) St0 = (Returned r, st') ∧
    ServiceCheck.status r = PStr "healthy".
Proof.
  split; [apply service_is_target|].
  apply (model_body_unhealthy_is_healthy checker vllm "vLLM Qwen2.5-14B"
           "http://localhost:9998/health" "model"
           (world (1 # 4) (λ _, plain "UNHEALTHY" 200)) St0
           (service_is_target _ _ _) _ "UNHEALTHY" eq_refl eq_refl eq_refl
           eq_refl).
  evaluated.
Defined.

(** A peer that would recover on the second request is asked once, though
    the checker was built with three retries. *)
Lemma forced_status_not_retried_witness :
  HealthChecker.max_retries checker = 3%Z ∧
  recovers 1 = plain "OK" 200 ∧
  ∃ r st',
    check_service_async checker ragflow (world (1 # 4) recovers) St0
      = (Returned r, st') ∧
    requests_sent st' = 1 ∧
    ServiceCheck.status r = PStr "unhealthy" ∧
    ServiceCheck.error_message r = Some "HTTP 500".
Proof.
  split; [reflexivity|]. split; [reflexivity|].
  apply (forced_status_not_retried checker ragflow "RAGFlow"
           "http://localhost:9380/" "web" (world (1 # 4) recovers) St0
           (service_is_target _ _ _) _ eq_refl).
  apply list_elem_of_In. simpl. auto.
Defined.

(** The session the checker creates does carry the retry strategy; only the
    synchronous fallback would use it. *)
Lemma session_retry_strategy (timeout max_retries : Z) :
  HealthChecker.session (__init__ timeout max_retries) !! "http://" =
    Some {| requests.total := max_retries; requests.backoff_factor := 1;
            requests.status_forcelist := [429; 500; 502; 503; 504]%Z |}.
Proof. unfold __init__, _create_session, requests.mount. simpl. by simplify_map_eq. Qed.

(** A quarter of a second between the two readings is reported as 250 ms. *)
Lemma latency_recorded_unless_zero_witness :
  is_target ragflow "RAGFlow" "http://localhost:9380/" "web" ∧
  ∃ r st',
    check_service_async checker ragflow
      (world (1 # 4) (λ _, plain "OK" 200)) St0 = (Returned r, st') ∧
    ServiceCheck.response_time r = Some (round2 (250 # 1)).
Proof.
  split; [apply service_is_target|].
  destruct (latency_recorded_unless_zero checker ragflow "RAGFlow"
              "http://localhost:9380/" "web"
              (world (1 # 4) (λ _, plain "OK" 200)) St0
              (service_is_target _ _ _))
    as (r & st' & Hrun & _ & _ & Hlatency).
  exists r, st'. split; [exact Hrun|].
  rewrite Hlatency; [evaluated | by vm_compute].
Defined.

(** C9, refuted as stated.  With a clock that gives the same reading twice
    the timer did start, both readings were taken, and yet the latency of
    the result is absent. *)
Lemma latency_absent_though_timer_started :
  ∃ r st',
    check_service_async checker ragflow
      (world 0 (λ _, plain "OK" 200)) St0 = (Returned r, st') ∧
    clock_reads st' = 2 ∧
    ServiceCheck.status r = PStr "healthy" ∧
    ServiceCheck.response_time r = None.
Proof. do 2 eexists. split; [evaluated|]. by vm_compute. Qed.

(** C7, refuted as stated.  The health endpoint of the API target answers
    [{"status": "unknown"}]: the probe stores status [unknown], the report
    counts one unknown service and its overall status is degraded. *)
Lemma unknown_status_reachable :
  ∃ r st',
    check_service_async checker litellm
      (world (1 # 4) (λ _, json_status (PStr "unknown") 200)) St0
      = (Returned r, st') ∧
    ServiceCheck.status r = PStr "unknown" ∧
    ∃ report st'',
      generate_report checker [r] (1 # 4)
        (world (1 # 4) (λ _, json_status (PStr "unknown") 200)) st'
        = (Returned report, st'') ∧
      HealthReport.unknown_services report = 1%Z ∧
      HealthReport.overall_status report = "degraded".
Proof.
  do 2 eexists. split; [evaluated|]. split; [by vm_compute|].
  do 2 eexists. split; [evaluated|]. by vm_compute.
Qed.

(** The probe of a web target cannot store [unknown]; its report counts no
    unknown service. *)
Lemma unknown_only_from_api_body_witness :
  ∃ r st',
    check_service_async checker ragflow
      (world (1 # 4) (λ _, plain "unknown" 200)) St0 = (Returned r, st') ∧
    ∃ report st'',
      generate_report checker [r] (1 # 4)
        (world (1 # 4) (λ _, plain "unknown" 200)) st'
        = (Returned report, st'') ∧
      HealthReport.unknown_services report = 0%Z ∧
      HealthReport.overall_status report ≠ "degraded".
Proof.
  destruct (probe_keeps_name_and_url checker ragflow "RAGFlow"
              "http://localhost:9380/" "web"
              (world (1 # 4) (λ _, plain "unknown" 200)) St0
              (service_is_target _ _ _))
    as (r & st' & Hrun & _).
  exists r, st'. split; [exact Hrun|].
  apply (proj2 (unknown_only_from_api_body checker)).
  constructor; [|constructor].
  exists ragflow, "RAGFlow", "http://localhost:9380/", "web",
    (world (1 # 4) (λ _, plain "unknown" 200)), St0, st'.
  split; [apply service_is_target|]. split; [exact Hrun|].
  intros (Hweb & _). discriminate Hweb.
Defined.

(** One degraded check between two healthy ones. *)
Lemma overall_status_precedence_witness :
  ∃ report st',
    generate_report checker
      [check_with "healthy"; check_with "degraded"; check_with "healthy"]
      (1 # 4) (world (1 # 4) (λ _, plain "OK" 200)) St0
      = (Returned report, st') ∧
    HealthReport.overall_status report = "healthy".
Proof.
  destruct (overall_status_precedence checker
              [check_with "healthy"; check_with "degraded"; check_with "healthy"]
              (1 # 4) (world (1 # 4) (λ _, plain "OK" 200)) St0)
    as (report & st' & Hrun & _ & _ & _ & Hmixed).
  exists report, st'. split; [exact Hrun|].
  apply (Hmixed [check_with "healthy"] (check_with "degraded")
           [check_with "healthy"]); [reflexivity | reflexivity |].
  repeat constructor.
Defined.

(** The whole registry, the probes completing last to first. *)
Lemma one_check_per_target_in_order_witness :
  ∃ checks,
    run_health_checks_async checker get_services_to_check
      (λ i, world (1 # 4) (λ _, plain "OK" (200 + Z.of_nat i)))
      (rev (seq 0 11)) = Some (Returned checks) ∧
    length checks = 11 ∧
    ServiceCheck.name <$> checks !! 0 = Some "LiteLLM Proxy" ∧
    ServiceCheck.name <$> checks !! 10 = Some "MinIO".
Proof.
  destruct (one_check_per_target_in_order checker get_services_to_check
              (λ i, world (1 # 4) (λ _, plain "OK" (200 + Z.of_nat i)))
              (rev (seq 0 11)))
    as (checks & Hrun & Hlen & Hpos & _).
  { repeat (constructor; [eexists _, _, _; apply service_is_target|]).
    constructor. }
  { symmetry. apply Permutation_rev. }
  exists checks. split; [exact Hrun|]. split; [exact Hlen|]. split.
  - destruct (Hpos 0 litellm eq_refl) as (check & -> & _ & Hname & _).
    destruct (service_is_target "LiteLLM Proxy"
                "http://localhost:4000/health/liveliness" "api") as (E & _).
    unfold litellm in Hname. rewrite E in Hname. simpl. congruence.
  - destruct (Hpos 10
                (service "MinIO" "http://localhost:9000/minio/health/live" "storage")
                eq_refl) as (check & -> & _ & Hname & _).
    destruct (service_is_target "MinIO"
                "http://localhost:9000/minio/health/live" "storage") as (E & _).
    rewrite E in Hname. simpl. congruence.
Defined.

(** ** Worked examples *)

Example model_service_ok :
  ServiceCheck.status <$>
    returned (check_service_async checker vllm
                (world (1 # 4) (λ _, plain "Service OK" 200)) St0)
  = Some (PStr "healthy").
Proof. evaluated. Qed.

Example model_body_unreadable :
  ServiceCheck.status <$>
    returned (check_service_async checker vllm
                (world (1 # 4)
                   (λ _, responds 200 (Raised (Exception "Expecting value"))
                           (Raised (Exception "codec can't decode byte"))))
                St0)
  = Some (PStr "healthy").
Proof. evaluated. Qed.

Example api_body_unparseable :
  ServiceCheck.status <$>
    returned (check_service_async checker litellm
                (world (1 # 4) (λ _, plain "<html>" 200)) St0)
  = Some (PStr "healthy").
Proof. evaluated. Qed.

Example api_body_not_an_object :
  ServiceCheck.status <$>
    returned (check_service_async checker litellm
                (world (1 # 4)
                   (λ _, responds 200 (Returned (PList [PStr "unknown"]))
                           (Returned "[]")))
                St0)
  = Some (PStr "healthy").
Proof. evaluated. Qed.

Example server_error_message :
  ServiceCheck.error_message <$>
    returned (check_service_async checker ragflow
                (world (1 # 4) (λ _, plain "" 503)) St0)
  = Some (Some "HTTP 503").
Proof. evaluated. Qed.

(** A dictionary without its [url] is no target: the lookup raises before
    the guarded block is entered. *)
Example missing_key_raises :
  (check_service_async checker (<["name" := "RAGFlow"]> ∅)
     (world (1 # 4) (λ _, plain "OK" 200)) St0).1
  = Raised (Exception "'url'").
Proof. evaluated. Qed.

End ClaimsAtWork.

(** * Further properties *)

Section Further.
Context {py : Unicode}.

#[local] Opaque pretty contains round2 float_truthy.

(** ** The probe as a function of the answer *)

Ltac verdict_cases :=
  match goal with
  | H : is_target _ _ _ _ |- _ =>
      let Hn := fresh "Hn" in let Hu := fresh "Hu" in let Ht := fresh "Ht" in
      destruct H as (Hn & Hu & Ht);
      unfold check_service_sync, requests_get, async_verdict, check_of_verdict,
        after_probe;
      probe_unfold; rewrite Hn, Hu, Ht; simpl
  end;
  repeat match goal with
    | |- context [network ?e ?u ?t ?n] =>
        destruct (network e u t n) as [? | [|?]]; simpl
    | |- context [(aiohttp.status ?r =? 200)%Z] =>
        destruct (Z.eqb_spec (aiohttp.status r) 200); simpl
    | |- context [String.eqb ?a ?b] =>
        destruct (String.eqb_spec a b); simpl
    | |- context [contains ?a ?b] =>
        destruct (contains a b) eqn:?; simpl
    | |- context [aiohttp.json ?r] =>
        destruct (aiohttp.json r) as [[]|] eqn:?; simpl
    | |- context [aiohttp.text ?r] =>
        destruct (aiohttp.text r) as [?|?] eqn:?; simpl
    end.

(** The asynchronous probe of a target returns the check of its verdict. *)
Lemma check_service_async_verdict (self : t) (service : gmap string string)
    (name url type : string) (env : Env) (st : St) :
  is_target service name url type →
  check_service_async self service env st =
    (Returned (check_of_verdict name url type env st
                 (async_verdict type url
                    (network env url (timeout self) (requests_sent st)))),
     after_probe st).
Proof. intros Htarget. verdict_cases; reflexivity. Qed.

Section ProbeFacts.
Context (self : t) (service : gmap string string) (name url type : string).
Context (env : Env) (st : St).
Hypothesis Htarget : is_target service name url type.

Let answer : aiohttp.reply :=
  network env url (timeout self) (requests_sent st).

(** X1.  The result of probing a target has no error message exactly when
    the request was answered by a 200 response; every failed request and
    every other status code leaves a message. *)
Theorem error_message_iff_request_failed :
  ∃ r st', check_service_async self service env st = (Returned r, st') ∧
    (ServiceCheck.error_message r = None ↔
     ∃ response, answer = aiohttp.Responds response ∧
                 aiohttp.status response = 200%Z).
Proof.
  rewrite (check_service_async_verdict _ _ _ _ _ _ _ Htarget).
  returns. subst answer. simpl. unfold async_verdict.
  destruct (network env url _ _) as [response | [|msg]].
  - destruct (Z.eqb_spec (aiohttp.status response) 200) as [Hok|Hbad].
    + split; [eauto|intros _].
      destruct (_ && _); [by destruct (aiohttp.json response) as [[]|]|].
      destruct (String.eqb type "model"); [|done].
      destruct (aiohttp.text response); [|done]. by destruct (_ && _).
    + split; [done|]. intros (response' & Heq & Hok). congruence.
  - split; [done | intros (? & ? & _); done].
  - split; [done | intros (? & ? & _); done].
Qed.

(** X2.  Whatever the answer, the probe of a target reads the clock
    twice, the calendar once and sends one request; its result carries the
    name and the URL of the target, the type of the target under [type] in
    the metadata, and the calendar reading as timestamp. *)
Theorem probe_identity_and_footprint :
  ∃ r, check_service_async self service env st = (Returned r, after_probe st) ∧
    ServiceCheck.name r = name ∧
    ServiceCheck.url r = url ∧
    ServiceCheck.metadata r = Some {["type" := type]} ∧
    ServiceCheck.timestamp r = calendar env (calendar_reads st).
Proof.
  rewrite (check_service_async_verdict _ _ _ _ _ _ _ Htarget). by eexists.
Qed.

(** X3.  Unless the target is of type [api] with [health] in its URL, the
    status of the result is healthy, degraded or unhealthy; it is unhealthy
    exactly when the request was not answered by a 200 response, and
    degraded exactly when the target is a model whose 200 response has a
    readable body with neither [healthy] nor [ok] in its lower-cased text. *)
Theorem status_without_adoption :
  ¬ (type = "api" ∧ contains "health" url = true) →
  ∃ r st', check_service_async self service env st = (Returned r, st') ∧
    (ServiceCheck.status r = PStr "healthy" ∨
     ServiceCheck.status r = PStr "degraded" ∨
     ServiceCheck.status r = PStr "unhealthy") ∧
    (ServiceCheck.status r = PStr "unhealthy" ↔
     ¬ ∃ response, answer = aiohttp.Responds response ∧
                   aiohttp.status response = 200%Z) ∧
    (ServiceCheck.status r = PStr "degraded" ↔
     type = "model" ∧
     ∃ response text,
       answer = aiohttp.Responds response ∧
       aiohttp.status response = 200%Z ∧
       aiohttp.text response = Returned text ∧
       contains "healthy" (lower text) = false ∧
       contains "ok" (lower text) = false).
Proof.
  intros Hplain.
  rewrite (check_service_async_verdict _ _ _ _ _ _ _ Htarget).
  returns. subst answer. simpl. unfold async_verdict.
  destruct (network env url _ _) as [response | [|msg]]; simpl.
  2,3: split_and!; [auto | split; [intros _ (? & ? & _); done | done]
                   | split; [done | intros (_ & ? & ? & ? & _); done]].
  destruct (Z.eqb_spec (aiohttp.status response) 200) as [Hok|Hbad]; simpl.
  2: { split_and!; [auto | | split; [done|]].
       - split; [intros _ (? & ? & ?); congruence | done].
       - intros (_ & ? & ? & ? & ? & _). congruence. }
  destruct (String.eqb_spec type "api") as [Hapi|Hapi]; simpl.
  { destruct (contains "health" url) eqn:Hurl; [tauto|]. simpl.
    destruct (String.eqb_spec type "model"); [congruence|]. simpl.
    split_and!; [auto | split; [done | intros []; eauto]
                | split; [done | intros (? & _); done]]. }
  destruct (String.eqb_spec type "model") as [Hmodel|Hmodel]; simpl.
  2: { split_and!; [auto | split; [done | intros []; eauto]
                   | split; [done | intros (? & _); done]]. }
  destruct (aiohttp.text response) as [text|e] eqn:Htext; simpl.
  2: { split_and!; [auto | split; [done | intros []; eauto]
                   | split; [done|]].
       intros (_ & ? & ? & ? & _ & ? & _). congruence. }
  destruct (contains "healthy" (lower text)) eqn:Hh,
           (contains "ok" (lower text)) eqn:Hk; simpl.
  all: split_and!; [auto | split; [done | intros []; eauto] | ].
  1-3: split; [done|]; intros (_ & r' & t' & ? & _ & ? & ? & ?); congruence.
  split; [intros _ | done]. split; [done|]. eauto 10.
Qed.

(** X4.  A result is unhealthy without an error message exactly when the
    status was adopted from the body: an [api] target with [health] in its
    URL, answered by a 200 response whose JSON object has the string
    [unhealthy] in its [status] field. *)
Theorem unhealthy_without_message_iff_adopted :
  ∃ r st', check_service_async self service env st = (Returned r, st') ∧
    (ServiceCheck.status r = PStr "unhealthy" ∧
     ServiceCheck.error_message r = None ↔
     type = "api" ∧ contains "health" url = true ∧
     ∃ response d,
       answer = aiohttp.Responds response ∧
       aiohttp.status response = 200%Z ∧
       aiohttp.json response = Returned (PDict d) ∧
       d !! "status" = Some (PStr "unhealthy")).
Proof.
  rewrite (check_service_async_verdict _ _ _ _ _ _ _ Htarget).
  returns. subst answer. simpl. unfold async_verdict.
  destruct (network env url _ _) as [response | [|msg]]; simpl.
  2,3: split; [intros [_ ?]; done | intros (_ & _ & ? & ? & ? & _); done].
  destruct (Z.eqb_spec (aiohttp.status response) 200) as [Hok|Hbad]; simpl.
  2: { split; [intros [_ ?]; done|].
       intros (_ & _ & ? & ? & ? & ? & _). congruence. }
  destruct (String.eqb_spec type "api") as [Hapi|Hapi]; simpl.
  2: { split; [|tauto]. intros [Hst _].
       destruct (String.eqb type "model"); [|done].
       destruct (aiohttp.text response); [|done]. by destruct (_ && _). }
  destruct (contains "health" url) eqn:Hurl; simpl.
  2: { split; [|intros (_ & ? & _); done]. intros [Hst _].
       destruct (String.eqb type "model"); [|done].
       destruct (aiohttp.text response); [|done]. by destruct (_ && _). }
  destruct (aiohttp.json response) as [data|e] eqn:Hjson; simpl.
  2: { split; [intros [? _]; done|].
       intros (_ & _ & ? & ? & ? & _ & ? & _). congruence. }
  destruct data; simpl;
    try (split; [intros [? _]; done|];
         intros (_ & _ & ? & ? & ? & _ & ? & _); congruence).
  split.
  - intros [Hst _]. split_and!; [done..|]. exists response, d.
    split_and!; [done..|].
    destruct (d !! "status"); simpl in Hst; [congruence | done].
  - intros (_ & _ & response' & d' & ? & _ & ? & Hd).
    assert (d' = d) as -> by congruence. by rewrite Hd.
Qed.
End ProbeFacts.

(** ** Dictionaries that are no targets *)

(** X5.  A dictionary without one of its keys makes the probe raise the
    [KeyError] of the first missing key, in the order [name], [url],
    [type], before the clock is read or a request is sent. *)
Theorem probe_missing_key_raises (self : t) (service : gmap string string)
    (env : Env) (st : St) :
  (service !! "name" = None →
     check_service_async self service env st
       = (Raised (Exception "'name'"), st)) ∧
  (is_Some (service !! "name") → service !! "url" = None →
     check_service_async self service env st
       = (Raised (Exception "'url'"), st)) ∧
  (is_Some (service !! "name") → is_Some (service !! "url") →
   service !! "type" = None →
     check_service_async self service env st
       = (Raised (Exception "'type'"), st)).
Proof.
  split_and!.
  - intros Hn. probe_unfold. by rewrite Hn.
  - intros [name Hn] Hu. probe_unfold. by rewrite Hn, Hu.
  - intros [name Hn] [url Hu] Ht. probe_unfold. by rewrite Hn, Hu, Ht.
Qed.

(** A dictionary is a target, or its probe raises at once. *)
Lemma probe_target_or_raises (self : t) (service : gmap string string)
    (env : Env) (st : St) :
  (∃ name url type, is_target service name url type) ∨
  (∃ e, check_service_async self service env st = (Raised e, st)).
Proof.
  destruct (service !! "name") as [name|] eqn:Hn;
    [|right; probe_unfold; rewrite Hn; eauto].
  destruct (service !! "url") as [url|] eqn:Hu;
    [|right; probe_unfold; rewrite Hn, Hu; eauto].
  destruct (service !! "type") as [type|] eqn:Ht;
    [|right; probe_unfold; rewrite Hn, Hu, Ht; eauto].
  left. by exists name, url, type.
Qed.

(** ** Latency *)

#[local] Transparent round2.

Lemma round_half_even_nonneg (q : Q) : (0 <= q)%Q → (0 ≤ round_half_even q)%Z.
Proof.
  intros Hq. unfold round_half_even.
  assert (0 ≤ Qfloor q)%Z as Hfloor.
  { change 0%Z with (Qfloor 0). by apply Qfloor_resp_le. }
  destruct (_ ?= _)%Q; [destruct (Z.even _)|..]; lia.
Qed.

Lemma round2_nonneg (x : Q) : (0 <= x)%Q → (0 <= round2 x)%Q.
Proof.
  intros Hx. unfold round2, Qle. simpl. rewrite Z.mul_1_r.
  apply round_half_even_nonneg. apply Qmult_le_0_compat; [done|].
  by vm_compute.
Qed.

#[local] Opaque round2.

(** X6.  When the second clock reading of a probe is not before the
    first, the latency of the result, if present, is not negative. *)
Theorem latency_nonnegative (self : t) (service : gmap string string)
    (name url type : string) (env : Env) (st : St) :
  is_target service name url type →
  (clock env (clock_reads st) <= clock env (S (clock_reads st)))%Q →
  ∃ r st', check_service_async self service env st = (Returned r, st') ∧
    ∀ latency, ServiceCheck.response_time r = Some latency →
               (0 <= latency)%Q.
Proof.
  intros Htarget Hclock.
  rewrite (check_service_async_verdict _ _ _ _ _ _ _ Htarget).
  returns. simpl. intros latency.
  destruct (float_truthy _); [|done]. intros [= <-].
  apply round2_nonneg. apply Qmult_le_0_compat; [|by vm_compute].
  by apply Qle_minus_iff in Hclock.
Qed.

(** ** The synchronous fallback *)

Section SyncProbe.
Context (self : t) (service : gmap string string) (name url type : string).
Context (env : Env) (st : St).
Hypothesis Htarget : is_target service name url type.

(** What the session answers to the one call the probe makes. *)
Let answer : requests.reply :=
  session_outcome env (session self) url (timeout self) (requests_sent st).

Ltac sync_cases :=
  destruct Htarget as (Hn & Hu & Ht); subst answer;
  unfold check_service_sync, requests_get; probe_unfold;
  rewrite Hn, Hu, Ht; simpl;
  destruct (session_outcome env _ url _ _) as [response | [|msg]]; simpl;
  [destruct (Z.eqb_spec (requests.status_code response) 200); simpl;
   [destruct (String.eqb_spec type "api"); simpl;
    [destruct (contains "health" url); simpl|];
    [destruct (requests.json response) as [[]|]; simpl
    |destruct (String.eqb_spec type "model"); simpl;
     [destruct (contains "healthy" (lower (requests.text response))),
        (contains "ok" (lower (requests.text response))); simpl|]..]
   |]
  |..].

(** X7.  The synchronous probe of a target makes one call on the session
    and returns a check whatever the outcome of the call.  A timeout gives
    unhealthy with message [Timeout], any other exception unhealthy with
    the text of the exception, a response other than 200 unhealthy with
    message [HTTP <code>].  For a model answered by 200 the status is
    healthy when the lower-cased text of the body has [healthy] or [ok] in
    it and degraded otherwise, without a message. *)
Theorem sync_probe_classification :
  ∃ r st', check_service_sync self service env st = (Returned r, st') ∧
    requests_sent st' = S (requests_sent st) ∧
    match answer with
    | requests.Fails TimeoutError =>
        ServiceCheck.status r = PStr "unhealthy" ∧
        ServiceCheck.error_message r = Some "Timeout"
    | requests.Fails (Exception msg) =>
        ServiceCheck.status r = PStr "unhealthy" ∧
        ServiceCheck.error_message r = Some msg
    | requests.Responds response =>
        (requests.status_code response ≠ 200%Z →
           ServiceCheck.status r = PStr "unhealthy" ∧
           ServiceCheck.error_message r =
             Some ("HTTP " +:+ pretty (requests.status_code response))) ∧
        (requests.status_code response = 200%Z → type = "model" →
           ServiceCheck.status r =
             (if contains "healthy" (lower (requests.text response))
                 || contains "ok" (lower (requests.text response))
              then PStr "healthy" else PStr "degraded") ∧
           ServiceCheck.error_message r = None)
    end.
Proof.
  sync_cases; returns; simpl; (split; [done|]); try done;
    split; intros; simplify_eq/=; done.
Qed.

(** The synchronous probe of a target returns, after one call and one
    reading of the calendar, a check with the target's name and URL. *)
Lemma check_service_sync_returns :
  ∃ r st', check_service_sync self service env st = (Returned r, st') ∧
    ServiceCheck.name r = name ∧ ServiceCheck.url r = url ∧
    requests_sent st' = S (requests_sent st) ∧
    calendar_reads st' = S (calendar_reads st).
Proof. sync_cases; by returns. Qed.
End SyncProbe.

(** The loop extends the results it was given by one check per target. *)
Lemma run_health_checks_sync_loop_returns (self : t)
    (services : list (gmap string string)) (results : list ServiceCheck.t)
    (env : Env) (st : St) :
  Forall (λ service, ∃ name url type, is_target service name url type)
    services →
  ∃ checks st',
    run_health_checks_sync_loop self services results env st
      = (Returned (results ++ checks)%list, st') ∧
    Forall2 (λ service check,
               service !! "name" = Some (ServiceCheck.name check) ∧
               service !! "url" = Some (ServiceCheck.url check))
      services checks ∧
    requests_sent st' = requests_sent st + length services ∧
    calendar_reads st' = calendar_reads st + length services.
Proof.
  intros Htargets. revert results st.
  induction Htargets as [|service services (name & url & type & Htarget) _ IH];
    intros results st.
  - exists [], st. simpl. rewrite app_nil_r. split_and!; [done | constructor | lia..].
  - destruct (check_service_sync_returns self service name url type env st Htarget)
      as (r & st1 & Hrun & <- & <- & Hreq & Hcal).
    destruct (IH (results ++ [r])%list st1) as (checks & st' & Hloop & Hall & Hreq' & Hcal').
    exists (r :: checks), st'. simpl.
    unfold mbind, M_bind. rewrite Hrun, Hloop.
    rewrite <- app_assoc. split_and!; [done | | lia..].
    constructor; [|done]. by destruct Htarget as (? & ? & ?).
Qed.

(** X9.  The synchronous run over a list of targets returns one check per
    target, in the order of the targets and with their names and URLs,
    after one call and one calendar reading per target. *)
Theorem run_health_checks_sync_in_order (self : t)
    (services : list (gmap string string)) (env : Env) (st : St) :
  Forall (λ service, ∃ name url type, is_target service name url type)
    services →
  ∃ checks st',
    run_health_checks_sync self services env st = (Returned checks, st') ∧
    Forall2 (λ service check,
               service !! "name" = Some (ServiceCheck.name check) ∧
               service !! "url" = Some (ServiceCheck.url check))
      services checks ∧
    requests_sent st' = requests_sent st + length services ∧
    calendar_reads st' = calendar_reads st + length services.
Proof.
  intros Htargets.
  destruct (run_health_checks_sync_loop_returns self services [] env st Htargets)
    as (checks & st' & Hrun & Hrest).
  by exists checks, st'.
Qed.

(** ** More on aggregation *)

(** Every field of the report, in terms of the counts. *)
Lemma generate_report_fields (self : t) (checks : list ServiceCheck.t)
    (duration : Q) (env : Env) (st : St) :
  ∃ report,
    generate_report self checks duration env st =
      (Returned report,
       {| clock_reads := clock_reads st;
          calendar_reads := S (calendar_reads st);
          requests_sent := requests_sent st |}) ∧
    HealthReport.checks report = checks ∧
    HealthReport.total_services report = Z.of_nat (length checks) ∧
    HealthReport.healthy_services report = count_status "healthy" checks ∧
    HealthReport.unhealthy_services report = count_status "unhealthy" checks ∧
    HealthReport.unknown_services report = count_status "unknown" checks ∧
    HealthReport.overall_status report =
      (if (count_status "unhealthy" checks >? 0)%Z then "unhealthy"
       else if (count_status "unknown" checks >? 0)%Z then "degraded"
       else "healthy").
Proof.
  report_unfold. eexists. split; [reflexivity|]. simpl.
  unfold count_status. by rewrite !sum_ones.
Qed.

Lemma count_status_nonneg (s : string) (checks : list ServiceCheck.t) :
  (0 ≤ count_status s checks)%Z.
Proof. unfold count_status. lia. Qed.

Lemma count_status_app (s : string) (a b : list ServiceCheck.t) :
  count_status s (a ++ b)%list = (count_status s a + count_status s b)%Z.
Proof. unfold count_status. rewrite List.filter_app, length_app. lia. Qed.

Lemma count_status_perm (s : string) (a b : list ServiceCheck.t) :
  a ≡ₚ b → count_status s a = count_status s b.
Proof.
  unfold count_status. intros Hperm. f_equal.
  induction Hperm as [|x a b _ IH|x y a|a b c _ IHab _ IHbc]; simpl.
  - done.
  - destruct (py_eq_str _ s); simpl; by rewrite IH.
  - by destruct (py_eq_str (ServiceCheck.status x) s),
               (py_eq_str (ServiceCheck.status y) s).
  - by rewrite IHab.
Qed.

Lemma count_status_all (s : string) (checks : list ServiceCheck.t) :
  count_status s checks = Z.of_nat (length checks) ↔
  Forall (λ check, ServiceCheck.status check = PStr s) checks.
Proof.
  unfold count_status.
  assert (∀ l : list ServiceCheck.t,
    (length (List.filter
       (λ check, py_eq_str (ServiceCheck.status check) s) l)
     ≤ length l)%nat) as Hle.
  { induction l as [|x l IH]; simpl; [done|].
    destruct (py_eq_str _ s); simpl; lia. }
  induction checks as [|c checks IH]; simpl.
  - split; [constructor | done].
  - destruct (py_eq_str (ServiceCheck.status c) s) eqn:Hc; simpl.
    + apply py_eq_str_true in Hc. split.
      * intros Hlen. constructor; [done|]. apply IH. lia.
      * intros Hall. apply Forall_cons in Hall as [_ Hall].
        apply IH in Hall. lia.
    + split.
      * intros Hlen. specialize (Hle checks). lia.
      * intros Hall. apply Forall_cons in Hall as [Hst _].
        apply py_eq_str_true in Hst. congruence.
Qed.

(** X12.  The overall status and the four counts of the report do not
    depend on the order of the checks. *)
Theorem report_independent_of_order (self : t)
    (checks checks' : list ServiceCheck.t) (duration : Q) (env : Env)
    (st : St) :
  checks ≡ₚ checks' →
  ∃ report report' st',
    generate_report self checks duration env st = (Returned report, st') ∧
    generate_report self checks' duration env st = (Returned report', st') ∧
    HealthReport.overall_status report = HealthReport.overall_status report' ∧
    HealthReport.total_services report = HealthReport.total_services report' ∧
    HealthReport.healthy_services report = HealthReport.healthy_services report' ∧
    HealthReport.unhealthy_services report
      = HealthReport.unhealthy_services report' ∧
    HealthReport.unknown_services report = HealthReport.unknown_services report'.
Proof.
  intros Hperm.
  destruct (generate_report_fields self checks duration env st)
    as (r & Hr & _ & Ht & Hh & Hu & Hk & Ho).
  destruct (generate_report_fields self checks' duration env st)
    as (r' & Hr' & _ & Ht' & Hh' & Hu' & Hk' & Ho').
  exists r, r'. eexists. split_and!; [done..| | | | |].
  - by rewrite Ho, Ho', !(count_status_perm _ _ _ Hperm).
  - by rewrite Ht, Ht', (Permutation_length Hperm).
  - by rewrite Hh, Hh', (count_status_perm _ _ _ Hperm).
  - by rewrite Hu, Hu', (count_status_perm _ _ _ Hperm).
  - by rewrite Hk, Hk', (count_status_perm _ _ _ Hperm).
Qed.

(** X13.  The report of two lists of checks put together has the sums of
    the counts of the two reports, and as overall status the worse of the
    two overall statuses (unhealthy before degraded before healthy). *)
Theorem report_of_concatenation (self : t) (a b : list ServiceCheck.t)
    (duration : Q) (env : Env) (st : St) :
  ∃ ra rb rab st',
    generate_report self a duration env st = (Returned ra, st') ∧
    generate_report self b duration env st = (Returned rb, st') ∧
    generate_report self (a ++ b)%list duration env st = (Returned rab, st') ∧
    HealthReport.overall_status rab =
      worst (HealthReport.overall_status ra) (HealthReport.overall_status rb) ∧
    HealthReport.total_services rab =
      (HealthReport.total_services ra + HealthReport.total_services rb)%Z ∧
    HealthReport.healthy_services rab =
      (HealthReport.healthy_services ra + HealthReport.healthy_services rb)%Z ∧
    HealthReport.unhealthy_services rab =
      (HealthReport.unhealthy_services ra
       + HealthReport.unhealthy_services rb)%Z ∧
    HealthReport.unknown_services rab =
      (HealthReport.unknown_services ra + HealthReport.unknown_services rb)%Z.
Proof.
  destruct (generate_report_fields self a duration env st)
    as (ra & Hra & _ & Hta & Hha & Hua & Hka & Hoa).
  destruct (generate_report_fields self b duration env st)
    as (rb & Hrb & _ & Htb & Hhb & Hub & Hkb & Hob).
  destruct (generate_report_fields self (a ++ b)%list duration env st)
    as (rab & Hrab & _ & Ht & Hh & Hu & Hk & Ho).
  exists ra, rb, rab. eexists. split_and!; [done..| | | | |].
  - rewrite Ho, Hoa, Hob, !count_status_app.
    pose proof (count_status_nonneg "unhealthy" a).
    pose proof (count_status_nonneg "unhealthy" b).
    pose proof (count_status_nonneg "unknown" a).
    pose proof (count_status_nonneg "unknown" b).
    destruct (Z.gtb_spec (count_status "unhealthy" a) 0),
             (Z.gtb_spec (count_status "unhealthy" b) 0),
             (Z.gtb_spec (count_status "unknown" a) 0),
             (Z.gtb_spec (count_status "unknown" b) 0);
      repeat match goal with
             | |- context [(?x >? 0)%Z] =>
                 destruct (Z.gtb_spec x 0); try lia
             end; reflexivity.
  - rewrite Ht, Hta, Htb, length_app. lia.
  - by rewrite Hh, Hha, Hhb, count_status_app.
  - by rewrite Hu, Hua, Hub, count_status_app.
  - by rewrite Hk, Hka, Hkb, count_status_app.
Qed.

(** X14.  In a report the healthy count equals the total exactly when
    every check has status healthy. *)
Theorem all_healthy_iff_counts_agree (self : t) (checks : list ServiceCheck.t)
    (duration : Q) (env : Env) (st : St) :
  ∃ report st',
    generate_report self checks duration env st = (Returned report, st') ∧
    (HealthReport.healthy_services report = HealthReport.total_services report
     ↔ Forall (λ check, ServiceCheck.status check = PStr "healthy") checks).
Proof.
  destruct (generate_report_fields self checks duration env st)
    as (r & Hr & _ & Ht & Hh & _).
  exists r. eexists. split; [done|]. rewrite Hh, Ht. apply count_status_all.
Qed.

(** X15.  The report of no checks at all is healthy, with all counts and
    the total at zero. *)
Theorem report_of_no_checks (self : t) (duration : Q) (env : Env) (st : St) :
  ∃ report st',
    generate_report self [] duration env st = (Returned report, st') ∧
    HealthReport.overall_status report = "healthy" ∧
    HealthReport.total_services report = 0%Z ∧
    HealthReport.healthy_services report = 0%Z ∧
    HealthReport.unhealthy_services report = 0%Z ∧
    HealthReport.unknown_services report = 0%Z ∧
    HealthReport.checks report = [].
Proof. report_unfold. by returns. Qed.

(** ** A run with a dictionary that is no target *)

(** An awaitable that raises makes the loop raise, whatever completes
    before it. *)
Lemma gather_loop_raises {A} (tasks : list (M A)) (worlds : nat → Env)
    (completion : list nat) (slots : list (option A)) (i : nat) (task : M A)
    (e : exn) :
  tasks !! i = Some task →
  (task (worlds i) St0).1 = Raised e →
  i ∈ completion →
  ∃ e', gather_loop tasks worlds completion slots = Raised e'.
Proof.
  intros Htask Hraise. revert slots.
  induction completion as [|j rest IH]; intros slots Hin.
  - by apply elem_of_nil in Hin.
  - simpl. destruct (tasks !! j) as [task'|] eqn:Hj.
    + destruct ((task' (worlds j) St0).1) as [a|e'] eqn:Hrun; [|eauto].
      apply elem_of_cons in Hin as [-> | Hin]; [|by apply IH].
      unfold M in *. rewrite Htask in Hj. injection Hj as <-.
      rewrite Hraise in Hrun. done.
    + apply elem_of_cons in Hin as [-> | Hin]; [|by apply IH].
      unfold M in *. rewrite Htask in Hj. done.
Qed.

(** X11.  When one of the services is no target, the asynchronous run
    raises, whatever the order in which the probes complete: no list of
    checks is returned. *)
Theorem malformed_service_aborts_run (self : t)
    (services : list (gmap string string)) (worlds : nat → Env)
    (completion : list nat) (i : nat) (bad : gmap string string) :
  services !! i = Some bad →
  ¬ (∃ name url type, is_target bad name url type) →
  completion ≡ₚ seq 0 (length services) →
  ∃ e,
    run_health_checks_async self services worlds completion
      = Some (Raised e).
Proof.
  intros Hbad Hnot Hperm.
  destruct (probe_target_or_raises self bad (worlds i) St0)
    as [Htarget | [e Hraise]]; [done|].
  unfold run_health_checks_async, gather.
  destruct (gather_loop_raises
              ((λ service, check_service_async self service) <$> services)
              worlds completion
              (replicate (length ((λ service, check_service_async self service)
                                    <$> services)) None)
              i (check_service_async self bad) e) as [e' ->].
  - by rewrite list_lookup_fmap, Hbad.
  - by rewrite Hraise.
  - rewrite Hperm. apply elem_of_seq. apply lookup_lt_Some in Hbad. lia.
  - eauto.
Qed.

(** ** Rendering the report *)

Ltac console_unfold :=
  unfold print, print_end, lift_value, mbind, P_bind, mret, P_ret.

Lemma colorize_string (self : t) (s : string) :
  ∃ colored, _colorize_status self (PStr s) = Returned colored.
Proof.
  unfold _colorize_status. simpl.
  destruct (String.eqb s "healthy"); [|destruct (String.eqb s "unhealthy");
    [|destruct (String.eqb s "degraded")]];
    by eexists.
Qed.

Lemma colorize_other (self : t) (v : pyval) :
  ¬ is_str v →
  _colorize_status self v =
    Raised (Exception ("'" +:+ type_name v
                         +:+ "' object has no attribute 'upper'")).
Proof.
  intros Hv. destruct v; try reflexivity. destruct Hv. by eexists.
Qed.

Section RenderingFacts.
Context (str_float : Q → string) (json_dumps : HealthReport.t → string).
Context (self : t).

Lemma print_checks_raises (verbose : bool) (checks : list ServiceCheck.t)
    (out : string) :
  Exists (λ check, ¬ is_str (ServiceCheck.status check)) checks →
  ∃ e out', print_checks str_float self verbose checks out = (Raised e, out').
Proof.
  intros Hex. revert out.
  induction checks as [|check checks IH]; intros out.
  - by apply Exists_nil in Hex.
  - simpl. unfold print_check. console_unfold.
    destruct (ServiceCheck.status check) as [| | | |s| |] eqn:Hs;
      try (simpl; eauto; fail).
    destruct (colorize_string self s) as (colored & Hc). rewrite Hc.
    apply Exists_cons in Hex as [Hhere | Hlater].
    { destruct Hhere. rewrite Hs. by eexists. }
    destruct (str_truthy _ && verbose); by apply IH.
Qed.


Lemma print_report_verbose (report : HealthReport.t) (out : string) :
  Exists (λ check, ¬ is_str (ServiceCheck.status check))
    (HealthReport.checks report) →
  ∃ e out',
    print_report str_float json_dumps self report true false out
      = (Raised e, out').
Proof.
  unfold print_report.
  destruct (colorize_string self (HealthReport.overall_status report))
    as (colored & Hc).
  intros Hex. console_unfold. rewrite Hc.
  match goal with
  | |- context [print_checks _ _ _ _ ?o] =>
      destruct (print_checks_raises true (HealthReport.checks report) o Hex)
        as (e & out1 & ->)
  end.
  by eexists _, _.
Qed.



(** X17.  Printing a report as text with the detailed listing raises when
    the status of some check is not a string: such a status, adopted from
    a JSON body, has no [upper]. *)
Theorem verbose_report_needs_string_statuses (report : HealthReport.t)
    (out : string) :
  Exists (λ check, ¬ is_str (ServiceCheck.status check))
    (HealthReport.checks report) →
  ∃ e out',
    print_report str_float json_dumps self report true false out
      = (Raised e, out').
Proof. apply print_report_verbose. Qed.
End RenderingFacts.

(** ** The whole run *)

Lemma registry_targets :
  Forall (λ service, ∃ name url type, is_target service name url type)
    get_services_to_check.
Proof.
  repeat (constructor; [eexists _, _, _; apply service_is_target|]).
  constructor.
Qed.

(** The asynchronous run over targets returns, for every order of
    completion, the check of each target at its position. *)
Lemma run_health_checks_async_returns (self : t)
    (services : list (gmap string string)) (worlds : nat → Env)
    (completion : list nat) :
  Forall (λ service, ∃ name url type, is_target service name url type)
    services →
  completion ≡ₚ seq 0 (length services) →
  ∃ checks,
    run_health_checks_async self services worlds completion
      = Some (Returned checks) ∧
    length checks = length services ∧
    ∀ i service, services !! i = Some service →
      ∃ check, checks !! i = Some check ∧
        (check_service_async self service (worlds i) St0).1 = Returned check.
Proof.
  intros Htargets Hperm.
  set (value := λ (i : nat) (service : gmap string string),
    let name := default "" (service !! "name") in
    let url := default "" (service !! "url") in
    let type := default "" (service !! "type") in
    check_of_verdict name url type (worlds i) St0
      (async_verdict type url (network (worlds i) url (timeout self) 0))).
  assert (∀ i service, services !! i = Some service →
    (check_service_async self service (worlds i) St0).1
      = Returned (value i service)) as Hvalue.
  { intros i service Hi. rewrite Forall_forall in Htargets.
    destruct (Htargets service) as (name & url & type & Htarget).
    { by eapply list_elem_of_lookup_2. }
    rewrite (check_service_async_verdict _ _ _ _ _ _ _ Htarget).
    destruct Htarget as (Hn & Hu & Ht). unfold value. by rewrite Hn, Hu, Ht. }
  exists (imap value services).
  assert (length (imap value services) = length services) as Hlen
    by apply length_imap.
  split_and!; [|done|].
  - unfold run_health_checks_async. apply gather_in_order.
    + intros i task Htask. rewrite list_lookup_fmap in Htask.
      destruct (services !! i) as [service|] eqn:Hi; [|done].
      simpl in Htask. injection Htask as <-.
      exists (value i service). rewrite list_lookup_imap, Hi.
      split; [done|]. by apply Hvalue.
    + by rewrite length_fmap.
    + by rewrite length_fmap.
  - intros i service Hi. exists (value i service).
    rewrite list_lookup_imap, Hi. split; [done|]. by apply Hvalue.
Qed.

Lemma str_app_nil_r (a : string) : a +:+ "" = a.
Proof. induction a as [|c a IH]; [done|]. by rewrite app_cons, IH. Qed.

Lemma str_app_length (a b : string) :
  String.length (a +:+ b) = (String.length a + String.length b)%nat.
Proof.
  induction a as [|c a IH]; [done|]. rewrite app_cons. simpl. by rewrite IH.
Qed.

Lemma count_status_positive (s : string) (checks : list ServiceCheck.t) :
  (count_status s checks >? 0)%Z = true ↔ has_status s checks.
Proof. unfold count_status. rewrite <- sum_ones. apply count_positive. Qed.

(** The lines of the alert are appended to what was written. *)
Lemma alert_lines_append (services : list ServiceCheck.t) :
  ∃ text, ∀ out,
    foldr (λ service rest,
             print ("  - " +:+ ServiceCheck.name service +:+ ": "
                    +:+ str_optional (ServiceCheck.error_message service));;
             rest)
      (mret tt) services out
    = (Returned tt, out +:+ text).
Proof.
  induction services as [|service services [text IH]].
  - exists "". intros out. simpl. unfold mret, P_ret. by rewrite str_app_nil_r.
  - eexists. intros out. simpl. unfold print, print_end, mbind, P_bind.
    rewrite IH, app_assoc_str. reflexivity.
Qed.

#[local] Opaque get_services_to_check generate_report print_report.

Ltac program_unfold :=
  unfold __main__, main, lift_M, lift_P, await, time_time,
    mbind, IO_bind, mret, IO_ret.

Section ProgramFacts.
Context (str_float : Q → string) (json_dumps : HealthReport.t → string).
Context (args : argparse.Namespace) (worlds : nat → Env).
Context (completion : list nat) (env : Env) (st : St) (out : string).

Let checker : t :=
  __init__ (argparse.timeout args) (argparse.retries args).

(** The exit code [main] chooses for a report. *)
Let code_of (report : HealthReport.t) : Z :=
  if String.eqb (HealthReport.overall_status report) "unhealthy" then 1%Z
  else if String.eqb (HealthReport.overall_status report) "degraded" then 2%Z
  else 0%Z.

(** Once the probes have returned, [main] builds the report, prints it and
    the alert, and chooses the exit code; it fails only if printing the
    report fails. *)
Lemma main_after_probes (checks : list ServiceCheck.t) :
  run_health_checks_async checker get_services_to_check worlds completion
    = Some (Returned checks) →
  ∃ report st' out1 tail,
    HealthReport.checks report = checks ∧
    HealthReport.overall_status report =
      (if (count_status "unhealthy" checks >? 0)%Z then "unhealthy"
       else if (count_status "unknown" checks >? 0)%Z then "degraded"
       else "healthy") ∧
    (argparse.json args = true → out1 = out) ∧
    (tail = "" ↔
     ¬ (argparse.alert args = true ∧ has_status "unhealthy" checks)) ∧
    main str_float json_dumps args worlds completion env st out =
      match print_report str_float json_dumps checker report
              (argparse.verbose args) (argparse.json args) out1 with
      | (Returned _, out2) => Some (Returned (code_of report), st', out2 +:+ tail)
      | (Raised e, out2) => Some (Raised e, st', out2)
      end.
Proof.
  intros Hrun. program_unfold. subst checker code_of. rewrite Hrun.
  unfold print, print_end.
  destruct args as [verbose json alert timeout retries]. simpl in *.
  destruct (alert_lines_append
              (List.filter
                 (λ check, py_eq_str (ServiceCheck.status check) "unhealthy")
                 checks)) as [lines Hlines].
  unfold print, print_end, mbind, mret in Hlines.
  destruct json; simpl;
    match goal with
    | |- context [generate_report ?c ?cs ?d ?e ?s] =>
        destruct (generate_report_fields c cs d e s)
          as (report & -> & Hchecks & _ & _ & Hbad & _ & Hoverall)
    end;
    exists report;
    match goal with
    | |- context [print_report _ _ _ _ _ _ ?o] =>
        exists {| clock_reads := S (S (clock_reads st));
                  calendar_reads := S (calendar_reads st);
                  requests_sent := requests_sent st |}, o
    end;
    destruct (print_report _ _ _ _ _ _ _) as [[[]|e] out2];
    (destruct (HealthReport.unhealthy_services report >? 0)%Z eqn:Hpos;
     [rewrite Hbad in Hpos; apply count_status_positive in Hpos
     |rewrite Hbad in Hpos; apply not_true_iff_false in Hpos;
      rewrite count_status_positive in Hpos]);
    destruct alert; simpl.
  all: try (exists ""; split_and!;
            [done | done | first [by intros [=] | intros _; by rewrite ?str_app_nil_r]
            | split; [by intros _ [? ?] | done]
            | rewrite ?str_app_nil_r;
              repeat destruct (String.eqb _ _); reflexivity]; fail).
  all: try (match goal with
            | |- context [foldr _ _ _ (_ +:+ ?hdr)] =>
                exists (hdr +:+ lines)
            end; split_and!;
            [done | done | first [by intros [=] | intros _; by rewrite ?str_app_nil_r]
            | split; [|by intros []];
              intros Hnil%(f_equal String.length);
              rewrite !str_app_length in Hnil; simpl in Hnil; lia
            | rewrite Hlines, ?str_app_nil_r, !app_assoc_str;
              repeat destruct (String.eqb _ _); reflexivity]; fail).
  all: try (exists nl; split_and!;
            [done | done | first [by intros [=] | intros _; by rewrite ?str_app_nil_r]
            | split; [done | by intros []]
            | rewrite ?str_app_nil_r; reflexivity]; fail).
Qed.

Hypothesis Hcompletion :
  completion ≡ₚ seq 0 (length get_services_to_check).


(** X19.  In text mode with the detailed listing, a check whose status is
    no string makes the script exit with code 1, whatever the statuses of
    the checks are. *)
Theorem verbose_run_fails_on_non_string_status :
  argparse.json args = false →
  argparse.verbose args = true →
  ∃ checks,
    run_health_checks_async checker get_services_to_check worlds completion
      = Some (Returned checks) ∧
    (Exists (λ check, ¬ is_str (ServiceCheck.status check)) checks →
     ∃ st' out',
       __main__ str_float json_dumps args worlds completion env st out
         = Some (1%Z, st', out')).
Proof.
  intros Hjson Hverbose.
  destruct (run_health_checks_async_returns checker get_services_to_check
              worlds completion registry_targets Hcompletion)
    as (checks & Hrun & _).
  exists checks. split; [exact Hrun|]. intros Hbad.
  destruct (main_after_probes checks Hrun)
    as (report & st' & out1 & tail & Hchecks & _ & _ & _ & Hmain).
  destruct (print_report_verbose str_float json_dumps checker report out1)
    as (e & out2 & Hprint); [by rewrite Hchecks|].
  unfold __main__. rewrite Hmain, Hjson, Hverbose, Hprint. by eexists _, _.
Qed.

End ProgramFacts.

(** ** Smaller facts *)

(** X22.  After [__post_init__] a check has a timestamp, provided the
    calendar gives a non-empty text, and a metadata dictionary; running
    [__post_init__] again changes nothing and does not read the calendar. *)
Theorem post_init_idempotent (check result : ServiceCheck.t)
    (env env' : Env) (st st' st'' : St) :
  calendar env (calendar_reads st) ≠ "" →
  ServiceCheck.__post_init__ check env st = (Returned result, st') →
  ServiceCheck.timestamp result ≠ "" ∧
  is_Some (ServiceCheck.metadata result) ∧
  ServiceCheck.__post_init__ result env' st'' = (Returned result, st'').
Proof.
  intros Hcal. unfold ServiceCheck.__post_init__, datetime_now_isoformat,
    mbind, M_bind, mret, M_ret.
  destruct check as [name url status rt msg ts md]. simpl.
  destruct (String.eqb_spec ts "") as [->|Hts]; simpl; intros [= <- <-]; simpl.
  - split_and!; [done | by destruct md |].
    destruct (String.eqb_spec (calendar env (calendar_reads st)) "");
      [done|]. simpl. by destruct md.
  - split_and!; [done | by destruct md |].
    destruct (String.eqb_spec ts ""); [done|]. simpl. by destruct md.
Qed.

(** X10.  The synchronous run raises at the first dictionary that is no
    target: the targets before it have been probed, one call each, their
    checks are lost, and the services after it are never probed. *)
Theorem sync_run_stops_at_first_malformed (self : t)
    (good rest : list (gmap string string)) (bad : gmap string string)
    (env : Env) (st : St) :
  Forall (λ service, ∃ name url type, is_target service name url type) good →
  ¬ (∃ name url type, is_target bad name url type) →
  ∃ e st',
    run_health_checks_sync self (good ++ bad :: rest)%list env st
      = (Raised e, st') ∧
    requests_sent st' = requests_sent st + length good.
Proof.
  intros Hgood Hbad. unfold run_health_checks_sync.
  generalize (@nil ServiceCheck.t) as results. revert st.
  induction Hgood as [|service good (name & url & type & Htarget) _ IH];
    intros st results; simpl.
  - assert (∃ e, check_service_sync self bad env st = (Raised e, st))
      as [e Hraise].
    { unfold check_service_sync. probe_unfold.
      destruct (bad !! "name") as [name|] eqn:Hn; [|eauto].
      destruct (bad !! "url") as [url|] eqn:Hu; [|eauto].
      destruct (bad !! "type") as [type|] eqn:Ht; [|eauto].
      destruct Hbad. by exists name, url, type. }
    exists e, st. unfold mbind, M_bind. rewrite Hraise. split; [done | lia].
  - destruct (check_service_sync_returns self service name url type env st Htarget)
      as (r & st1 & Hrun & _ & _ & Hreq & _).
    destruct (IH st1 (results ++ [r])%list) as (e & st' & Hloop & Hcount).
    exists e, st'. unfold mbind, M_bind. rewrite Hrun, Hloop.
    split; [done | lia].
Qed.

End Further.

(** ** The further properties at work *)

(** The scenarios run under [ascii_only]: the bodies and the statuses in
    them are ASCII text, on which it is Python's runtime. *)
Section FurtherAtWork.
#[local] Existing Instance ascii_only.

#[local] Transparent get_services_to_check generate_report print_report.

Lemma error_message_iff_request_failed_witness :
  ∃ r st',
    check_service_async checker ragflow
      (world (1 # 4) (λ _, plain "gone" 404)) St0 = (Returned r, st') ∧
    ServiceCheck.error_message r ≠ None.
Proof.
  destruct (error_message_iff_request_failed checker ragflow "RAGFlow"
              "http://localhost:9380/" "web"
              (world (1 # 4) (λ _, plain "gone" 404)) St0
              (service_is_target _ _ _)) as (r & st' & Hrun & Hiff).
  exists r, st'. split; [exact Hrun|]. intros Hnone.
  apply Hiff in Hnone as (response & Hanswer & Hok).
  injection Hanswer as <-. discriminate Hok.
Defined.

Lemma probe_identity_and_footprint_witness :
  ∃ r,
    check_service_async checker vllm
      (world (1 # 4) (λ _, plain "OK" 200)) St0
      = (Returned r, after_probe St0) ∧
    ServiceCheck.name r = "vLLM Qwen2.5-14B" ∧
    ServiceCheck.url r = "http://localhost:9998/health" ∧
    ServiceCheck.metadata r = Some {["type" := "model"]} ∧
    ServiceCheck.timestamp r = "2024-01-01T00:00:00".
Proof.
  exact (probe_identity_and_footprint checker vllm "vLLM Qwen2.5-14B"
           "http://localhost:9998/health" "model"
           (world (1 # 4) (λ _, plain "OK" 200)) St0
           (service_is_target _ _ _)).
Defined.

Lemma status_without_adoption_witness :
  ∃ r st',
    check_service_async checker vllm
      (world (1 # 4) (λ _, plain "HEALTHY" 200)) St0 = (Returned r, st') ∧
    ServiceCheck.status r ≠ PStr "degraded".
Proof.
  destruct (status_without_adoption checker vllm "vLLM Qwen2.5-14B"
              "http://localhost:9998/health" "model"
              (world (1 # 4) (λ _, plain "HEALTHY" 200)) St0
              (service_is_target _ _ _))
    as (r & st' & Hrun & _ & _ & Hdegraded).
  { intros [Hapi _]. discriminate Hapi. }
  exists r, st'. split; [exact Hrun|]. intros Hstatus.
  apply Hdegraded in Hstatus
    as (_ & response & text & Hanswer & _ & Htext & Hhealthy & _).
  injection Hanswer as <-. injection Htext as <-.
  vm_compute in Hhealthy. discriminate Hhealthy.
Defined.

Lemma unhealthy_without_message_iff_adopted_witness :
  ∃ r st',
    check_service_async checker litellm
      (world (1 # 4) (λ _, json_status (PStr "unhealthy") 200)) St0
      = (Returned r, st') ∧
    ServiceCheck.status r = PStr "unhealthy" ∧
    ServiceCheck.error_message r = None.
Proof.
  destruct (unhealthy_without_message_iff_adopted checker litellm
              "LiteLLM Proxy" "http://localhost:4000/health/liveliness" "api"
              (world (1 # 4) (λ _, json_status (PStr "unhealthy") 200)) St0
              (service_is_target _ _ _))
    as (r & st' & Hrun & Hiff).
  exists r, st'. split; [exact Hrun|]. apply Hiff.
  split; [reflexivity|]. split; [evaluated|].
  eexists _, {["status" := PStr "unhealthy"]}.
  split; [reflexivity|]. split; [reflexivity|]. split; [reflexivity|].
  evaluated.
Defined.

Lemma latency_nonnegative_witness :
  ∃ r st',
    check_service_async checker ragflow
      (world (1 # 4) (λ _, plain "OK" 200)) St0 = (Returned r, st') ∧
    ∀ latency, ServiceCheck.response_time r = Some latency →
               (0 <= latency)%Q.
Proof.
  apply (latency_nonnegative checker ragflow "RAGFlow"
           "http://localhost:9380/" "web"
           (world (1 # 4) (λ _, plain "OK" 200)) St0
           (service_is_target _ _ _)).
  by vm_compute.
Defined.

Lemma sync_probe_classification_witness :
  ∃ r st',
    check_service_sync checker vllm
      (world (1 # 4) (λ _, plain "Service OK" 200)) St0 = (Returned r, st') ∧
    requests_sent st' = 1 ∧
    ServiceCheck.status r = PStr "healthy" ∧
    ServiceCheck.error_message r = None.
Proof.
  destruct (sync_probe_classification checker vllm "vLLM Qwen2.5-14B"
              "http://localhost:9998/health" "model"
              (world (1 # 4) (λ _, plain "Service OK" 200)) St0
              (service_is_target _ _ _))
    as (r & st' & Hrun & Hsent & Hverdict).
  exists r, st'. split; [exact Hrun|]. split; [exact Hsent|].
  simpl in Hverdict. destruct Hverdict as [_ Hok].
  exact (Hok eq_refl eq_refl).
Defined.

Lemma run_health_checks_sync_in_order_witness :
  ∃ checks st',
    run_health_checks_sync checker [litellm; vllm; ragflow]
      (world (1 # 4) (λ _, plain "OK" 200)) St0 = (Returned checks, st') ∧
    Forall2 (λ service check,
               service !! "name" = Some (ServiceCheck.name check) ∧
               service !! "url" = Some (ServiceCheck.url check))
      [litellm; vllm; ragflow] checks ∧
    requests_sent st' = 3 ∧
    calendar_reads st' = 3.
Proof.
  apply (run_health_checks_sync_in_order checker [litellm; vllm; ragflow]
           (world (1 # 4) (λ _, plain "OK" 200)) St0).
  repeat (constructor; [eexists _, _, _; apply service_is_target|]).
  constructor.
Defined.

Lemma malformed_service_aborts_run_witness :
  ∃ e,
    run_health_checks_async checker [ragflow; <["name" := "Redis"]> ∅; vllm]
      (registry_worlds (plain "OK" 200)) [2; 0; 1] = Some (Raised e).
Proof.
  apply (malformed_service_aborts_run checker
           [ragflow; <["name" := "Redis"]> ∅; vllm]
           (registry_worlds (plain "OK" 200)) [2; 0; 1] 1
           (<["name" := "Redis"]> ∅) eq_refl).
  - intros (name & url & type & _ & Hurl & _). discriminate Hurl.
  - simpl. etrans; [apply Permutation_swap|].
    apply Permutation_skip, Permutation_swap.
Defined.

Lemma report_independent_of_order_witness :
  ∃ report report' st',
    generate_report checker [check_with "unhealthy"; check_with "healthy"]
      (1 # 4) (world (1 # 4) recovers) St0 = (Returned report, st') ∧
    generate_report checker [check_with "healthy"; check_with "unhealthy"]
      (1 # 4) (world (1 # 4) recovers) St0 = (Returned report', st') ∧
    HealthReport.overall_status report = HealthReport.overall_status report' ∧
    HealthReport.total_services report = HealthReport.total_services report' ∧
    HealthReport.healthy_services report = HealthReport.healthy_services report' ∧
    HealthReport.unhealthy_services report
      = HealthReport.unhealthy_services report' ∧
    HealthReport.unknown_services report = HealthReport.unknown_services report'.
Proof.
  apply (report_independent_of_order checker
           [check_with "unhealthy"; check_with "healthy"]
           [check_with "healthy"; check_with "unhealthy"]
           (1 # 4) (world (1 # 4) recovers) St0).
  apply Permutation_swap.
Defined.


Lemma verbose_report_needs_string_statuses_witness :
  ∃ e out',
    print_report render_float render_json checker number_report true false ""
      = (Raised e, out').
Proof.
  apply (verbose_report_needs_string_statuses render_float render_json
           checker number_report "").
  apply Exists_cons_tl, Exists_cons_hd. intros [s Hs]. discriminate Hs.
Defined.


Lemma verbose_run_fails_on_non_string_status_witness :
  ∃ st' out',
    __main__ render_float render_json verbose_args
      (registry_worlds (json_status (PInt 1) 200))
      (rev (seq 0 (length get_services_to_check)))
      (world 1 recovers) St0 ""
    = Some (1%Z, st', out').
Proof.
  destruct (verbose_run_fails_on_non_string_status render_float render_json
              verbose_args (registry_worlds (json_status (PInt 1) 200))
              (rev (seq 0 (length get_services_to_check)))
              (world 1 recovers) St0 "")
    as (checks & Hrun & Hfail); [|reflexivity|reflexivity|].
  { symmetry. apply Permutation_rev. }
  apply Hfail. vm_compute in Hrun. injection Hrun as <-.
  apply Exists_cons_hd. intros [s Hs]. discriminate Hs.
Defined.


Lemma post_init_idempotent_witness :
  ServiceCheck.__post_init__
    {| ServiceCheck.name := "svc"; ServiceCheck.url := "http://localhost/";
       ServiceCheck.status := PStr "healthy";
       ServiceCheck.response_time := None;
       ServiceCheck.error_message := None;
       ServiceCheck.timestamp := ""; ServiceCheck.metadata := None |}
    (world (1 # 4) recovers) St0
    = (Returned (check_with "healthy"),
       {| clock_reads := 0; calendar_reads := 1; requests_sent := 0 |}) ∧
  ServiceCheck.timestamp (check_with "healthy") ≠ "" ∧
  is_Some (ServiceCheck.metadata (check_with "healthy")) ∧
  ServiceCheck.__post_init__ (check_with "healthy") (world 1 recovers) St0
    = (Returned (check_with "healthy"), St0).
Proof.
  split; [reflexivity|].
  apply (post_init_idempotent
           {| ServiceCheck.name := "svc";
              ServiceCheck.url := "http://localhost/";
              ServiceCheck.status := PStr "healthy";
              ServiceCheck.response_time := None;
              ServiceCheck.error_message := None;
              ServiceCheck.timestamp := ""; ServiceCheck.metadata := None |}
           (check_with "healthy") (world (1 # 4) recovers) (world 1 recovers)
           St0 {| clock_reads := 0; calendar_reads := 1; requests_sent := 0 |}
           St0).
  - simpl. intros Hempty. discriminate Hempty.
  - reflexivity.
Defined.

Lemma sync_run_stops_at_first_malformed_witness :
  ∃ e st',
    run_health_checks_sync checker
      [ragflow; vllm; <["name" := "Redis"]> ∅; litellm]
      (world (1 # 4) (λ _, plain "OK" 200)) St0 = (Raised e, st') ∧
    requests_sent st' = 2.
Proof.
  apply (sync_run_stops_at_first_malformed checker [ragflow; vllm] [litellm]
           (<["name" := "Redis"]> ∅) (world (1 # 4) (λ _, plain "OK" 200))
           St0).
  - repeat (constructor; [eexists _, _, _; apply service_is_target|]).
    constructor.
  - intros (name & url & type & _ & Hurl & _). discriminate Hurl.
Defined.

End FurtherAtWork.
